(** * OSDPretty: the on-screen-display popup of Clementine (src/osdpretty.cpp)

    A shallow embedding of the widget's state and of its handlers, followed
    by the properties of the written specification that concern them.

    The widget's own code is embedded statement by statement in a small
    state monad.  What the code asks of the toolkit is kept apart:
    - the base-class state of QWidget (visibility, position, size, cursor,
      window opacity, pending repaint) and the QTimer are modelled by
      records with the few operations the file calls;
    - the desktop layout, the layout's size hint, image scaling and colour
      darkening are data and functions of a [Toolkit] value that every
      handler receives. *)

From Stdlib Require Import ZArith List String Bool Lia PrimFloat.
From coqutil Require Import Z.bitblast.
Import ListNotations.
Local Open Scope Z_scope.

Set Implicit Arguments.
Set Warnings "-inexact-float".

(** ** C++ [int] *)

(** [int] is 32 bits wide; an out-of-range result is written as the
    two's-complement wrap-around. *)
Module Int.

Definition min_int : Z := -2147483648.
Definition max_int : Z := 2147483647.

Definition wrap (z : Z) : Z := (z + 2147483648) mod 4294967296 - 2147483648.

Definition add (a b : Z) : Z := wrap (a + b).
Definition sub (a b : Z) : Z := wrap (a - b).
Definition mul (a b : Z) : Z := wrap (a * b).
Definition neg (a : Z) : Z := wrap (- a).

Definition in_range (z : Z) : Prop := min_int <= z <= max_int.

End Int.

(** ** Toolkit value types *)

(** [qreal] values are only stored and handed on by this file. *)
Definition qreal : Type := float.

Record QPoint : Type := mkQPoint { px : Z; py : Z }.

(** [QPoint::operator+] and [operator-], componentwise on [int]. *)
Definition QPoint_add (a b : QPoint) : QPoint :=
  mkQPoint (Int.add (px a) (px b)) (Int.add (py a) (py b)).
Definition QPoint_sub (a b : QPoint) : QPoint :=
  mkQPoint (Int.sub (px a) (px b)) (Int.sub (py a) (py b)).
Definition setX (v : Z) (p : QPoint) : QPoint := mkQPoint v (py p).
Definition setY (v : Z) (p : QPoint) : QPoint := mkQPoint (px p) v.

Record QSize : Type := mkQSize { wd : Z; ht : Z }.

(** A [QRect] stores its two corners; [right()] and [bottom()] are the
    stored far corner, that is, the last column and row inside. *)
Record QRect : Type := mkQRect { left : Z; top : Z; right : Z; bottom : Z }.

Definition QRect_adjusted (dx1 dy1 dx2 dy2 : Z) (r : QRect) : QRect :=
  mkQRect (Int.add (left r) dx1) (Int.add (top r) dy1)
          (Int.add (right r) dx2) (Int.add (bottom r) dy2).

(** [qMin], [qMax] and [qBound] of qglobal.h. *)
Definition qMin (a b : Z) : Z := if a <? b then a else b.
Definition qMax (a b : Z) : Z := if a <? b then b else a.
Definition qBound (min val max : Z) : Z := qMax min (qMin max val).

Record QColor : Type := mkQColor { red : Z; green : Z; blue : Z; alpha : Z }.

(** [qRgb(r, g, b)] packs an opaque colour as 0xffRRGGBB. *)
Definition qRgb (r g b : Z) : Z :=
  Z.lor (Z.shiftl 255 24)
        (Z.lor (Z.shiftl (Z.land r 255) 16)
               (Z.lor (Z.shiftl (Z.land g 255) 8) (Z.land b 255))).

(** [QColor(QRgb)]: the three colour bytes, fully opaque. *)
Definition QColor_fromRgb (rgb : Z) : QColor :=
  mkQColor (Z.land (Z.shiftr rgb 16) 255) (Z.land (Z.shiftr rgb 8) 255)
           (Z.land rgb 255) 255.

(** An image is null or has a positive width and height; its pixels play
    no part here. *)
Inductive QImage : Type := QImage_null | QImage_of_size (w h : positive).

Definition isNull (image : QImage) : bool :=
  match image with QImage_null => true | QImage_of_size _ _ => false end.
Definition QImage_width (image : QImage) : Z :=
  match image with QImage_null => 0 | QImage_of_size w _ => Z.pos w end.
Definition QImage_height (image : QImage) : Z :=
  match image with QImage_null => 0 | QImage_of_size _ h => Z.pos h end.

Inductive QPixmap : Type := QPixmap_fromImage (image : QImage).

Inductive AspectRatioMode : Type :=
  IgnoreAspectRatio | KeepAspectRatio | KeepAspectRatioByExpanding.
Inductive TransformationMode : Type := FastTransformation | SmoothTransformation.
Inductive CursorShape : Type := ArrowCursor | OpenHandCursor.

Record QMouseEvent : Type := mkQMouseEvent { ev_pos : QPoint; globalPos : QPoint }.

(** ** The single-shot timer

    [remaining] is [Some r] while the timer runs, with [r] milliseconds
    still to go, and [None] while it is inactive.  The constructor makes
    the timer single-shot and nothing in the file changes that. *)
Record QTimer : Type := mkQTimer { interval : Z; remaining : option Z }.

(** [QTimer::start()] starts the timer, or stops and restarts it when it is
    running, with the whole interval to go. *)
Definition QTimer_start (t : QTimer) : QTimer :=
  mkQTimer (interval t) (Some (interval t)).

(** [QTimer::setInterval(msec)] stores the interval; a running timer is
    killed and started again with it, an inactive one stays inactive. *)
Definition QTimer_setInterval (msec : Z) (t : QTimer) : QTimer :=
  mkQTimer msec (match remaining t with Some _ => Some msec | None => None end).

(** ** Widget state *)

Inductive Mode : Type := Mode_Popup | Mode_Draggable.

(** The state of the QWidget base class that the file reads or writes. *)
Record QWidget : Type := mkQWidget {
  w_visible : bool;
  w_pos : QPoint;
  w_size : QSize;
  w_cursor : CursorShape;
  w_windowOpacity : qreal;
  w_update_pending : bool
}.

(** The child elements of the generated form: the icon and the two labels.
    A label's palette is kept as its [WindowText] colour. *)
Record Ui_OSDPretty : Type := mkUi {
  icon_visible : bool;
  icon_pixmap : option QPixmap;
  icon_maximumSize : option QSize;
  summary_text : string;
  message_text : string;
  summary_palette : option QColor;
  message_palette : option QColor
}.

Record OSDPretty : Type := mkOSDPretty {
  widget : QWidget;
  ui_ : Ui_OSDPretty;
  mode_ : Mode;
  foreground_color_ : QColor;
  background_color_ : QColor;
  background_opacity_ : qreal;
  popup_display_ : Z;
  popup_pos_ : QPoint;
  timeout_ : QTimer;
  original_window_pos_ : QPoint;
  drag_start_pos_ : QPoint
}.

(** What the handlers ask of the toolkit and of the desktop. *)
Record Toolkit : Type := mkToolkit {
  screenCount : Z;
  availableGeometry : Z -> QRect;
  availableGeometryAt : QPoint -> QRect;
  screenNumber : QPoint -> Z;
  sizeHint : Ui_OSDPretty -> QSize;
  scaled : QImage -> Z -> Z -> AspectRatioMode -> TransformationMode -> QImage;
  darker : QColor -> Z -> QColor
}.

(** Field updates. *)
Definition QWidget_with_visible (v : bool) (q : QWidget) : QWidget :=
  mkQWidget v (w_pos q) (w_size q) (w_cursor q) (w_windowOpacity q) (w_update_pending q).
Definition QWidget_with_pos (p : QPoint) (q : QWidget) : QWidget :=
  mkQWidget (w_visible q) p (w_size q) (w_cursor q) (w_windowOpacity q) (w_update_pending q).
Definition QWidget_with_size (s : QSize) (q : QWidget) : QWidget :=
  mkQWidget (w_visible q) (w_pos q) s (w_cursor q) (w_windowOpacity q) (w_update_pending q).
Definition QWidget_with_cursor (c : CursorShape) (q : QWidget) : QWidget :=
  mkQWidget (w_visible q) (w_pos q) (w_size q) c (w_windowOpacity q) (w_update_pending q).
Definition QWidget_with_windowOpacity (o : qreal) (q : QWidget) : QWidget :=
  mkQWidget (w_visible q) (w_pos q) (w_size q) (w_cursor q) o (w_update_pending q).
Definition QWidget_with_update_pending (b : bool) (q : QWidget) : QWidget :=
  mkQWidget (w_visible q) (w_pos q) (w_size q) (w_cursor q) (w_windowOpacity q) b.

Definition with_widget (q : QWidget) (o : OSDPretty) : OSDPretty :=
  mkOSDPretty q (ui_ o) (mode_ o) (foreground_color_ o) (background_color_ o)
    (background_opacity_ o) (popup_display_ o) (popup_pos_ o) (timeout_ o)
    (original_window_pos_ o) (drag_start_pos_ o).
Definition with_ui (u : Ui_OSDPretty) (o : OSDPretty) : OSDPretty :=
  mkOSDPretty (widget o) u (mode_ o) (foreground_color_ o) (background_color_ o)
    (background_opacity_ o) (popup_display_ o) (popup_pos_ o) (timeout_ o)
    (original_window_pos_ o) (drag_start_pos_ o).
Definition with_mode (m : Mode) (o : OSDPretty) : OSDPretty :=
  mkOSDPretty (widget o) (ui_ o) m (foreground_color_ o) (background_color_ o)
    (background_opacity_ o) (popup_display_ o) (popup_pos_ o) (timeout_ o)
    (original_window_pos_ o) (drag_start_pos_ o).
Definition with_foreground_color (c : QColor) (o : OSDPretty) : OSDPretty :=
  mkOSDPretty (widget o) (ui_ o) (mode_ o) c (background_color_ o)
    (background_opacity_ o) (popup_display_ o) (popup_pos_ o) (timeout_ o)
    (original_window_pos_ o) (drag_start_pos_ o).
Definition with_background_color (c : QColor) (o : OSDPretty) : OSDPretty :=
  mkOSDPretty (widget o) (ui_ o) (mode_ o) (foreground_color_ o) c
    (background_opacity_ o) (popup_display_ o) (popup_pos_ o) (timeout_ o)
    (original_window_pos_ o) (drag_start_pos_ o).
Definition with_background_opacity (a : qreal) (o : OSDPretty) : OSDPretty :=
  mkOSDPretty (widget o) (ui_ o) (mode_ o) (foreground_color_ o) (background_color_ o)
    a (popup_display_ o) (popup_pos_ o) (timeout_ o)
    (original_window_pos_ o) (drag_start_pos_ o).
Definition with_popup_display (d : Z) (o : OSDPretty) : OSDPretty :=
  mkOSDPretty (widget o) (ui_ o) (mode_ o) (foreground_color_ o) (background_color_ o)
    (background_opacity_ o) d (popup_pos_ o) (timeout_ o)
    (original_window_pos_ o) (drag_start_pos_ o).
Definition with_popup_pos (p : QPoint) (o : OSDPretty) : OSDPretty :=
  mkOSDPretty (widget o) (ui_ o) (mode_ o) (foreground_color_ o) (background_color_ o)
    (background_opacity_ o) (popup_display_ o) p (timeout_ o)
    (original_window_pos_ o) (drag_start_pos_ o).
Definition with_timeout (t : QTimer) (o : OSDPretty) : OSDPretty :=
  mkOSDPretty (widget o) (ui_ o) (mode_ o) (foreground_color_ o) (background_color_ o)
    (background_opacity_ o) (popup_display_ o) (popup_pos_ o) t
    (original_window_pos_ o) (drag_start_pos_ o).
Definition with_original_window_pos (p : QPoint) (o : OSDPretty) : OSDPretty :=
  mkOSDPretty (widget o) (ui_ o) (mode_ o) (foreground_color_ o) (background_color_ o)
    (background_opacity_ o) (popup_display_ o) (popup_pos_ o) (timeout_ o)
    p (drag_start_pos_ o).
Definition with_drag_start_pos (p : QPoint) (o : OSDPretty) : OSDPretty :=
  mkOSDPretty (widget o) (ui_ o) (mode_ o) (foreground_color_ o) (background_color_ o)
    (background_opacity_ o) (popup_display_ o) (popup_pos_ o) (timeout_ o)
    (original_window_pos_ o) p.

(** ** The state monad of the handlers *)

Definition M (A : Type) : Type := OSDPretty -> A * OSDPretty.

Definition ret {A : Type} (a : A) : M A := fun o => (a, o).
Definition bind {A B : Type} (m : M A) (k : A -> M B) : M B :=
  fun o => let (a, o') := m o in k a o'.
Definition gets {A : Type} (f : OSDPretty -> A) : M A := fun o => (f o, o).
Definition modify (f : OSDPretty -> OSDPretty) : M unit := fun o => (tt, f o).
Definition when (b : bool) (m : M unit) : M unit := if b then m else ret tt.

(** The state a handler leaves behind. *)
Definition exec {A : Type} (m : M A) (o : OSDPretty) : OSDPretty := snd (m o).

Declare Scope osd_scope.
Delimit Scope osd_scope with osd.
Notation "x <- c1 ;; c2" := (bind c1 (fun x => c2))
  (at level 61, c1 at next level, right associativity) : osd_scope.
Notation "c1 ;; c2" := (bind c1 (fun _ => c2))
  (at level 61, right associativity) : osd_scope.
Local Open Scope osd_scope.

(** ** QWidget, QLabel and QTimer calls made by the file *)

Definition isVisible : M bool := gets (fun o => w_visible (widget o)).
Definition pos : M QPoint := gets (fun o => w_pos (widget o)).
Definition width : M Z := gets (fun o => wd (w_size (widget o))).
Definition height : M Z := gets (fun o => ht (w_size (widget o))).

Definition on_widget (f : QWidget -> QWidget) : M unit :=
  modify (fun o => with_widget (f (widget o)) o).
Definition on_ui (f : Ui_OSDPretty -> Ui_OSDPretty) : M unit :=
  modify (fun o => with_ui (f (ui_ o)) o).
Definition on_timeout (f : QTimer -> QTimer) : M unit :=
  modify (fun o => with_timeout (f (timeout_ o)) o).

Definition hide : M unit := on_widget (QWidget_with_visible false).
Definition move (p : QPoint) : M unit := on_widget (QWidget_with_pos p).
Definition resize (s : QSize) : M unit := on_widget (QWidget_with_size s).
Definition setCursor (c : CursorShape) : M unit := on_widget (QWidget_with_cursor c).
Definition setWindowOpacity (level : qreal) : M unit :=
  on_widget (QWidget_with_windowOpacity level).
(** [update()] schedules a paint event. *)
Definition update : M unit := on_widget (QWidget_with_update_pending true).

Definition icon_setPixmap (p : QPixmap) : M unit :=
  on_ui (fun u => mkUi (icon_visible u) (Some p) (icon_maximumSize u) (summary_text u)
                       (message_text u) (summary_palette u) (message_palette u)).
Definition icon_setVisible (b : bool) : M unit :=
  on_ui (fun u => mkUi b (icon_pixmap u) (icon_maximumSize u) (summary_text u)
                       (message_text u) (summary_palette u) (message_palette u)).
Definition icon_show : M unit := icon_setVisible true.
Definition icon_hide : M unit := icon_setVisible false.
Definition icon_setMaximumSize (w h : Z) : M unit :=
  on_ui (fun u => mkUi (icon_visible u) (icon_pixmap u) (Some (mkQSize w h)) (summary_text u)
                       (message_text u) (summary_palette u) (message_palette u)).
Definition summary_setText (s : string) : M unit :=
  on_ui (fun u => mkUi (icon_visible u) (icon_pixmap u) (icon_maximumSize u) s
                       (message_text u) (summary_palette u) (message_palette u)).
Definition message_setText (s : string) : M unit :=
  on_ui (fun u => mkUi (icon_visible u) (icon_pixmap u) (icon_maximumSize u) (summary_text u)
                       s (summary_palette u) (message_palette u)).
Definition summary_setPalette (windowText : QColor) : M unit :=
  on_ui (fun u => mkUi (icon_visible u) (icon_pixmap u) (icon_maximumSize u) (summary_text u)
                       (message_text u) (Some windowText) (message_palette u)).
Definition message_setPalette (windowText : QColor) : M unit :=
  on_ui (fun u => mkUi (icon_visible u) (icon_pixmap u) (icon_maximumSize u) (summary_text u)
                       (message_text u) (summary_palette u) (Some windowText)).

Definition timeout_start : M unit := on_timeout QTimer_start.
Definition timeout_setInterval (msec : Z) : M unit := on_timeout (QTimer_setInterval msec).

(** ** Constants *)

Definition kDropShadowSize : Z := 13.
Definition kBorderRadius : Z := 10.
Definition kMaxIconSize : Z := 100.
Definition kPresetBlue : Z := qRgb 102 150 227.
Definition kPresetOrange : Z := qRgb 254 156 67.

(** ** The handlers of osdpretty.cpp *)

Definition Mode_eqb (a b : Mode) : bool :=
  match a, b with
  | Mode_Popup, Mode_Popup | Mode_Draggable, Mode_Draggable => true
  | _, _ => false
  end.

Definition SetMode (mode : Mode) : M unit :=
  modify (with_mode mode) ;;
  m <- gets mode_ ;;
  match m with
  | Mode_Popup => setCursor ArrowCursor
  | Mode_Draggable => setCursor OpenHandCursor
  end.

(** The screen index that [Reposition] hands to [availableGeometry]. *)
Definition Reposition_screen (screen_count popup_display : Z) : Z :=
  if popup_display >=? screen_count then -1 else popup_display.

Definition Reposition (desktop : Toolkit) : M unit :=
  hint <- gets (fun o => sizeHint desktop (ui_ o)) ;;
  resize hint ;;
  popup_display <- gets popup_display_ ;;
  let screen := Reposition_screen (screenCount desktop) popup_display in
  let geometry := availableGeometry desktop screen in
  popup_pos <- gets popup_pos_ ;;
  let x := Int.add (px popup_pos) (left geometry) in
  let y := Int.add (py popup_pos) (top geometry) in
  w <- width ;;
  h <- height ;;
  move (mkQPoint (qBound 0 x (Int.sub (right geometry) w))
                 (qBound 0 y (Int.sub (bottom geometry) h))).

Definition SetMessage (tk : Toolkit) (summary message : string) (image : QImage)
  : M unit :=
  (if negb (isNull image) then
     let scaled_image :=
       scaled tk image kMaxIconSize kMaxIconSize KeepAspectRatio SmoothTransformation in
     icon_setPixmap (QPixmap_fromImage scaled_image) ;;
     icon_show
   else
     icon_hide) ;;
  summary_setText summary ;;
  message_setText message ;;
  visible <- isVisible ;;
  when visible (Reposition tk) ;;
  visible <- isVisible ;;
  m <- gets mode_ ;;
  when (visible && Mode_eqb m Mode_Popup) timeout_start.

Definition showEvent (tk : Toolkit) : M unit :=
  Reposition tk ;;
  setWindowOpacity 1.0%float ;;
  m <- gets mode_ ;;
  when (Mode_eqb m Mode_Popup) timeout_start.

Definition enterEvent : M unit :=
  m <- gets mode_ ;;
  when (Mode_eqb m Mode_Popup) (setWindowOpacity 0.25%float).

Definition leaveEvent : M unit := setWindowOpacity 1.0%float.

Definition mousePressEvent (e : QMouseEvent) : M unit :=
  m <- gets mode_ ;;
  if Mode_eqb m Mode_Popup then hide
  else
    p <- pos ;;
    modify (with_original_window_pos p) ;;
    modify (with_drag_start_pos (globalPos e)).

Definition mouseMoveEvent (desktop : Toolkit) (e : QMouseEvent) : M unit :=
  m <- gets mode_ ;;
  when (Mode_eqb m Mode_Draggable) (
    drag_start_pos <- gets drag_start_pos_ ;;
    original_window_pos <- gets original_window_pos_ ;;
    let delta := QPoint_sub (globalPos e) drag_start_pos in
    let new_pos := QPoint_add original_window_pos delta in
    let geometry := availableGeometryAt desktop (globalPos e) in
    w <- width ;;
    h <- height ;;
    let new_pos :=
      setX (qBound (left geometry) (px new_pos) (Int.sub (right geometry) w)) new_pos in
    let new_pos :=
      setY (qBound (top geometry) (py new_pos) (Int.sub (bottom geometry) h)) new_pos in
    move new_pos).

Definition current_display (desktop : Toolkit) (o : OSDPretty) : Z :=
  screenNumber desktop (w_pos (widget o)).

Definition current_pos (desktop : Toolkit) (o : OSDPretty) : QPoint :=
  let geometry := availableGeometry desktop (current_display desktop o) in
  mkQPoint (Int.sub (px (w_pos (widget o))) (left geometry))
           (Int.sub (py (w_pos (widget o))) (top geometry)).

Definition set_background_color (color : Z) : M unit :=
  modify (with_background_color (QColor_fromRgb color)) ;;
  visible <- isVisible ;;
  when visible update.

Definition set_background_opacity (opacity : qreal) : M unit :=
  modify (with_background_opacity opacity) ;;
  visible <- isVisible ;;
  when visible update.

Definition set_foreground_color (color : Z) : M unit :=
  modify (with_foreground_color (QColor_fromRgb color)) ;;
  fg <- gets foreground_color_ ;;
  summary_setPalette fg ;;
  message_setPalette fg.

Definition set_popup_duration (msec : Z) : M unit := timeout_setInterval msec.

(** The persisted settings of group "OSDPretty": a key that was never
    written reads as [None]. *)
Record QSettings : Type := mkQSettings {
  s_foreground_color : option Z;
  s_background_color : option Z;
  s_background_opacity : option qreal;
  s_popup_display : option Z;
  s_popup_pos : option QPoint
}.

Definition value {A : Type} (stored : option A) (default : A) : A :=
  match stored with Some v => v | None => default end.

(** [QColor::rgb()]. *)
Definition QColor_rgb (c : QColor) : Z := qRgb (red c) (green c) (blue c).

(** Modelled from the spec: the accessor [foreground_color()] is declared in
    osdpretty.h, which is not among the sources; it reads the stored
    foreground colour back as a packed value. *)
Definition foreground_color : M Z := gets (fun o => QColor_rgb (foreground_color_ o)).

Definition Load (s : QSettings) : M unit :=
  modify (with_foreground_color (QColor_fromRgb (value (s_foreground_color s) 0))) ;;
  modify (with_background_color (QColor_fromRgb (value (s_background_color s) kPresetBlue))) ;;
  modify (with_background_opacity (value (s_background_opacity s) 0.85%float)) ;;
  modify (with_popup_display (value (s_popup_display s) (-1))) ;;
  modify (with_popup_pos (value (s_popup_pos s) (mkQPoint 0 0))) ;;
  fg <- foreground_color ;;
  set_foreground_color fg.

Definition ReloadSettings (s : QSettings) : M unit :=
  Load s ;;
  visible <- isVisible ;;
  when visible update.

(** The constructor: [base] is the freshly built QWidget and [form] the
    children that [setupUi] creates.  Window flags, the shadow pixmaps and
    the layout margins do not enter the state kept here. *)
Definition OSDPretty_new (base : QWidget) (form : Ui_OSDPretty) (s : QSettings)
  : OSDPretty :=
  exec (SetMode Mode_Popup ;;
        timeout_setInterval 5000 ;;
        icon_setMaximumSize kMaxIconSize kMaxIconSize ;;
        Load s)
       (mkOSDPretty base form Mode_Popup (mkQColor 0 0 0 255)
          (QColor_fromRgb kPresetOrange) 0.85%float 0 (mkQPoint 0 0)
          (mkQTimer 0 None) (mkQPoint 0 0) (mkQPoint 0 0)).

(** ** The event loop's part in the auto-hide

    [elapse msec] lets [msec] milliseconds go by with no other event.  A
    running timer counts down; when it runs out it becomes inactive and
    emits timeout(), which the constructor connected to hide(). *)
Definition elapse (msec : Z) (o : OSDPretty) : OSDPretty :=
  match remaining (timeout_ o) with
  | None => o
  | Some r =>
      if msec <? r
      then with_timeout (mkQTimer (interval (timeout_ o)) (Some (r - msec))) o
      else exec hide (with_timeout (mkQTimer (interval (timeout_ o)) None) o)
  end.

(** ** The paint routine

    The painter is a piece of mutable state: every draw call uses the
    brush, pen and opacity that are current when it is made, and the log
    of draw calls records them. *)

Inductive RenderHint : Type := Antialiasing | HighQualityAntialiasing.

(** The cached shadow pieces, rotated by 90 * i degrees. *)
Inductive ShadowPixmap : Type := shadow_corner_ (i : Z) | shadow_edge_ (i : Z).

Record QLinearGradient : Type := mkQLinearGradient {
  gradient_start : Z * Z;
  gradient_finalStop : Z * Z;
  gradient_stops : list (qreal * QColor)
}.

Definition setColorAt (position : qreal) (c : QColor) (g : QLinearGradient)
  : QLinearGradient :=
  mkQLinearGradient (gradient_start g) (gradient_finalStop g)
                    (gradient_stops g ++ [(position, c)]).

Inductive QBrush : Type :=
| NoBrush
| SolidBrush (c : QColor)
| GradientBrush (g : QLinearGradient).

Inductive QPen : Type :=
| DefaultPen
| Pen (c : QColor) (pen_width : Z).

Inductive DrawCall : Type :=
| drawPixmap (x y : Z) (pm : ShadowPixmap) (opacity : qreal)
| drawTiledPixmap (x y w h : Z) (pm : ShadowPixmap) (opacity : qreal)
| drawRoundedRect (rect : QRect) (xRadius yRadius : Z)
                  (brush : QBrush) (pen : QPen) (opacity : qreal).

Record QPainter : Type := mkQPainter {
  p_hints : list RenderHint;
  p_brush : QBrush;
  p_pen : QPen;
  p_opacity : qreal;
  p_drawn : list DrawCall
}.

(** A painter just opened on the widget. *)
Definition QPainter_begin : QPainter := mkQPainter [] NoBrush DefaultPen 1.0%float [].

Definition setRenderHint (h : RenderHint) (p : QPainter) : QPainter :=
  mkQPainter (p_hints p ++ [h]) (p_brush p) (p_pen p) (p_opacity p) (p_drawn p).
Definition setBrush (b : QBrush) (p : QPainter) : QPainter :=
  mkQPainter (p_hints p) b (p_pen p) (p_opacity p) (p_drawn p).
Definition setPen (n : QPen) (p : QPainter) : QPainter :=
  mkQPainter (p_hints p) (p_brush p) n (p_opacity p) (p_drawn p).
Definition setOpacity (a : qreal) (p : QPainter) : QPainter :=
  mkQPainter (p_hints p) (p_brush p) (p_pen p) a (p_drawn p).
Definition draw (c : DrawCall) (p : QPainter) : QPainter :=
  mkQPainter (p_hints p) (p_brush p) (p_pen p) (p_opacity p) (p_drawn p ++ [c]).

Definition p_drawPixmap (x y : Z) (pm : ShadowPixmap) (p : QPainter) : QPainter :=
  draw (drawPixmap x y pm (p_opacity p)) p.
Definition p_drawTiledPixmap (x y w h : Z) (pm : ShadowPixmap) (p : QPainter)
  : QPainter :=
  draw (drawTiledPixmap x y w h pm (p_opacity p)) p.
Definition p_drawRoundedRect (r : QRect) (xRadius yRadius : Z) (p : QPainter)
  : QPainter :=
  draw (drawRoundedRect r xRadius yRadius (p_brush p) (p_pen p) (p_opacity p)) p.

(** [QWidget::rect()]. *)
Definition rect (o : OSDPretty) : QRect :=
  mkQRect 0 0 (Int.sub (wd (w_size (widget o))) 1) (Int.sub (ht (w_size (widget o))) 1).

Notation "p |> f" := (f p) (at level 62, left associativity, only parsing) : osd_scope.

Definition paintEvent (tk : Toolkit) (o : OSDPretty) : QPainter :=
  let width := wd (w_size (widget o)) in
  let height := ht (w_size (widget o)) in
  let box := QRect_adjusted kDropShadowSize kDropShadowSize
               (Int.neg kDropShadowSize) (Int.neg kDropShadowSize) (rect o) in
  let kShadowCornerSize := Int.add kDropShadowSize kBorderRadius in
  let gradient :=
    mkQLinearGradient (0, 0) (0, height) []
    |> setColorAt 0%float (mkQColor 255 255 255 130)
    |> setColorAt 1%float (mkQColor 255 255 255 50) in
  QPainter_begin
  |> setRenderHint Antialiasing
  |> setRenderHint HighQualityAntialiasing
  (* Shadow corners *)
  |> p_drawPixmap 0 0 (shadow_corner_ 0)
  |> p_drawPixmap (Int.sub width kShadowCornerSize) 0 (shadow_corner_ 1)
  |> p_drawPixmap (Int.sub width kShadowCornerSize) (Int.sub height kShadowCornerSize)
                  (shadow_corner_ 2)
  |> p_drawPixmap 0 (Int.sub height kShadowCornerSize) (shadow_corner_ 3)
  (* Shadow edges *)
  |> p_drawTiledPixmap kShadowCornerSize 0
       (Int.sub width (Int.mul kShadowCornerSize 2)) kDropShadowSize (shadow_edge_ 0)
  |> p_drawTiledPixmap (Int.sub width kDropShadowSize) kShadowCornerSize
       kDropShadowSize (Int.sub height (Int.mul kShadowCornerSize 2)) (shadow_edge_ 1)
  |> p_drawTiledPixmap kShadowCornerSize (Int.sub height kDropShadowSize)
       (Int.sub width (Int.mul kShadowCornerSize 2)) kDropShadowSize (shadow_edge_ 2)
  |> p_drawTiledPixmap 0 kShadowCornerSize
       kDropShadowSize (Int.sub height (Int.mul kShadowCornerSize 2)) (shadow_edge_ 3)
  (* Box background *)
  |> setBrush (SolidBrush (background_color_ o))
  |> setPen DefaultPen
  |> setOpacity (background_opacity_ o)
  |> p_drawRoundedRect box kBorderRadius kBorderRadius
  (* Gradient overlay *)
  |> setBrush (GradientBrush gradient)
  |> setOpacity 1.0%float
  |> p_drawRoundedRect box kBorderRadius kBorderRadius
  (* Box border *)
  |> setBrush NoBrush
  |> setPen (Pen (darker tk (background_color_ o) 150) 2)
  |> p_drawRoundedRect box kBorderRadius kBorderRadius.

(** ** Operations on the widget, as the host application and the toolkit
    invoke them *)

Inductive Op : Type :=
| Op_Load (s : QSettings)
| Op_ReloadSettings (s : QSettings)
| Op_SetMode (mode : Mode)
| Op_SetMessage (summary message : string) (image : QImage)
| Op_showEvent
| Op_Reposition
| Op_enterEvent
| Op_leaveEvent
| Op_mousePressEvent (e : QMouseEvent)
| Op_mouseMoveEvent (e : QMouseEvent)
| Op_set_background_color (color : Z)
| Op_set_background_opacity (opacity : qreal)
| Op_set_foreground_color (color : Z)
| Op_set_popup_duration (msec : Z).

Definition run (tk : Toolkit) (op : Op) : OSDPretty -> OSDPretty :=
  match op with
  | Op_Load s => exec (Load s)
  | Op_ReloadSettings s => exec (ReloadSettings s)
  | Op_SetMode mode => exec (SetMode mode)
  | Op_SetMessage summary message image => exec (SetMessage tk summary message image)
  | Op_showEvent => exec (showEvent tk)
  | Op_Reposition => exec (Reposition tk)
  | Op_enterEvent => exec enterEvent
  | Op_leaveEvent => exec leaveEvent
  | Op_mousePressEvent e => exec (mousePressEvent e)
  | Op_mouseMoveEvent e => exec (mouseMoveEvent tk e)
  | Op_set_background_color color => exec (set_background_color color)
  | Op_set_background_opacity opacity => exec (set_background_opacity opacity)
  | Op_set_foreground_color color => exec (set_foreground_color color)
  | Op_set_popup_duration msec => exec (set_popup_duration msec)
  end.

(** * A concrete desktop

    Two 1920x1080 screens: the primary one at the origin and a second one
    to its left, at negative coordinates.  The toolkit functions follow
    Qt's: [QSize::scale] for the size of a scaled image, a per-channel
    darkening. *)
Module TwoScreens.

Definition primary_screen : QRect := mkQRect 0 0 1919 1079.
Definition left_screen : QRect := mkQRect (-1920) 0 (-1) 1079.

(** [QSize::scale(box, mode)]; the products are taken in 64 bits. *)
Definition QSize_scale (s box : QSize) (mode : AspectRatioMode) : QSize :=
  match mode with
  | IgnoreAspectRatio => box
  | _ =>
      if (wd s =? 0) || (ht s =? 0) then box
      else
        let rw := Z.quot (ht box * wd s) (ht s) in
        let useHeight :=
          match mode with
          | KeepAspectRatio => rw <=? wd box
          | _ => rw >=? wd box
          end in
        if useHeight then mkQSize (Int.wrap rw) (ht box)
        else mkQSize (wd box) (Int.wrap (Z.quot (wd box * ht s) (wd s)))
  end.

Definition QImage_sized (s : QSize) : QImage :=
  if (0 <? wd s) && (0 <? ht s)
  then QImage_of_size (Z.to_pos (wd s)) (Z.to_pos (ht s))
  else QImage_null.

(** [QImage::scaled(w, h, aspectMode, transformMode)]. *)
Definition QImage_scaled (image : QImage) (w h : Z) (mode : AspectRatioMode)
  (tm : TransformationMode) : QImage :=
  match image with
  | QImage_null => QImage_null
  | QImage_of_size iw ih =>
      if (w <=? 0) || (h <=? 0) then QImage_null
      else QImage_sized (QSize_scale (mkQSize (Z.pos iw) (Z.pos ih)) (mkQSize w h) mode)
  end.

Definition QColor_darker (c : QColor) (factor : Z) : QColor :=
  mkQColor (Z.quot (red c * 100) factor) (Z.quot (green c * 100) factor)
           (Z.quot (blue c * 100) factor) (alpha c).

Definition desktop : Toolkit :=
  mkToolkit 2
    (fun screen => if screen =? 1 then left_screen else primary_screen)
    (fun p => if px p <? 0 then left_screen else primary_screen)
    (fun p => if px p <? 0 then 1 else 0)
    (fun _ => mkQSize 300 100)
    QImage_scaled
    QColor_darker.

Definition form : Ui_OSDPretty := mkUi true None None "" "" None None.
Definition base : QWidget := mkQWidget false (mkQPoint 0 0) (mkQSize 640 480)
                                       ArrowCursor 1.0%float false.

(** A widget as the constructor leaves it when no setting was ever saved. *)
Definition fresh : OSDPretty := OSDPretty_new base form (mkQSettings None None None None None).

(** The widget shown, with the countdown of its timer 3800 ms under way. *)
Definition shown : OSDPretty :=
  elapse 3800 (exec (showEvent desktop) (with_widget (QWidget_with_visible true base) fresh)).

(** The widget configured for the screen on the left. *)
Definition on_left_screen : OSDPretty := with_popup_display 1 fresh.

End TwoScreens.

(** * Vocabulary of the properties *)

(** Coordinates far from the ends of [int]: sums and differences of two
    of them are exact. *)
Definition small (z : Z) : Prop := -536870912 <= z <= 536870912.
Definition QPoint_small (p : QPoint) : Prop := small (px p) /\ small (py p).
Definition QSize_small (s : QSize) : Prop := small (wd s) /\ small (ht s).
Definition QRect_small (r : QRect) : Prop :=
  small (left r) /\ small (top r) /\ small (right r) /\ small (bottom r).


Definition cursor_of_mode (mode : Mode) : CursorShape :=
  match mode with Mode_Popup => ArrowCursor | Mode_Draggable => OpenHandCursor end.

Definition SetMode_all (modes : list Mode) (o : OSDPretty) : OSDPretty :=
  fold_left (fun st mode => exec (SetMode mode) st) modes o.

(** Everything but the stored mode and the cursor. *)
Definition same_but_mode_and_cursor (o o' : OSDPretty) : Prop :=
  foreground_color_ o' = foreground_color_ o /\
  background_color_ o' = background_color_ o /\
  background_opacity_ o' = background_opacity_ o /\
  popup_pos_ o' = popup_pos_ o /\
  popup_display_ o' = popup_display_ o /\
  timeout_ o' = timeout_ o /\
  ui_ o' = ui_ o /\
  original_window_pos_ o' = original_window_pos_ o /\
  drag_start_pos_ o' = drag_start_pos_ o /\
  w_visible (widget o') = w_visible (widget o) /\
  w_pos (widget o') = w_pos (widget o) /\
  w_size (widget o') = w_size (widget o) /\
  w_windowOpacity (widget o') = w_windowOpacity (widget o) /\
  w_update_pending (widget o') = w_update_pending (widget o).

(** The icon and the texts as [SetMessage] leaves them. *)
Definition SetMessage_ui (tk : Toolkit) (summary message : string) (image : QImage)
  (u : Ui_OSDPretty) : Ui_OSDPretty :=
  mkUi (negb (isNull image))
       (if isNull image then icon_pixmap u
        else Some (QPixmap_fromImage
                     (scaled tk image kMaxIconSize kMaxIconSize
                             KeepAspectRatio SmoothTransformation)))
       (icon_maximumSize u) summary message (summary_palette u) (message_palette u).

(** How each operation changes the timer. *)
Definition timer_after (op : Op) (o : OSDPretty) : QTimer :=
  match op with
  | Op_showEvent =>
      match mode_ o with
      | Mode_Popup => QTimer_start (timeout_ o)
      | Mode_Draggable => timeout_ o
      end
  | Op_SetMessage _ _ _ =>
      if w_visible (widget o) then
        match mode_ o with
        | Mode_Popup => QTimer_start (timeout_ o)
        | Mode_Draggable => timeout_ o
        end
      else timeout_ o
  | Op_set_popup_duration msec => QTimer_setInterval msec (timeout_ o)
  | _ => timeout_ o
  end.

(** An operation (re)arms the timer when it leaves it running with the
    whole interval to go, and that is not the countdown it found. *)
Definition rearms (tk : Toolkit) (op : Op) (o : OSDPretty) : Prop :=
  let t' := timeout_ (run tk op o) in
  remaining t' = Some (interval t') /\ remaining t' <> remaining (timeout_ o).

(** C10 as stated, its last part: only [showEvent] in Popup mode and
    [SetMessage] on a visible widget in Popup mode (re)arm the timer. *)
Definition rearmed_only_by_show_or_message : Prop :=
  forall (tk : Toolkit) (op : Op) (o : OSDPretty),
    rearms tk op o ->
    (op = Op_showEvent /\ mode_ o = Mode_Popup) \/
    (exists summary message image,
        op = Op_SetMessage summary message image /\
        w_visible (widget o) = true /\ mode_ o = Mode_Popup).

(** C2 as stated: on a visible widget each of the three colour and
    opacity setters leaves a repaint pending; [set_popup_duration] asks for
    no repaint and leaves the countdown of a running timer alone. *)
Definition setters_as_stated : Prop :=
  forall (o : OSDPretty) (color : Z) (opacity : qreal) (msec : Z),
    w_visible (widget o) = true ->
    w_update_pending (widget (exec (set_background_color color) o)) = true /\
    w_update_pending (widget (exec (set_background_opacity opacity) o)) = true /\
    w_update_pending (widget (exec (set_foreground_color color) o)) = true /\
    w_update_pending (widget (exec (set_popup_duration msec) o))
    = w_update_pending (widget o) /\
    remaining (timeout_ (exec (set_popup_duration msec) o)) = remaining (timeout_ o).

(** What the file relies on from [QImage::scaled] with [KeepAspectRatio]:
    the result fits the requested box, and a result that is an image has
    the proportions of the original up to the rounding to whole pixels. *)
Definition scaled_keeps_aspect_ratio (tk : Toolkit) : Prop :=
  forall (image : QImage) (w h : Z) (tm : TransformationMode),
    0 < w <= Int.max_int -> 0 < h <= Int.max_int ->
    let result := scaled tk image w h KeepAspectRatio tm in
    QImage_width result <= w /\
    QImage_height result <= h /\
    (isNull result = false ->
     Z.abs (QImage_width result * QImage_height image
            - QImage_height result * QImage_width image)
     < Z.max (QImage_width image) (QImage_height image)).

Definition is_rounded_rect (c : DrawCall) : bool :=
  match c with drawRoundedRect _ _ _ _ _ _ => true | _ => false end.

Definition opacity_of (c : DrawCall) : qreal :=
  match c with
  | drawPixmap _ _ _ a | drawTiledPixmap _ _ _ _ _ a | drawRoundedRect _ _ _ _ _ a => a
  end.

(** The white gloss: alpha 130 at the top, 50 at the bottom of the widget. *)
Definition gloss (height : Z) : QBrush :=
  GradientBrush
    (mkQLinearGradient (0, 0) (0, height)
       [(0%float, mkQColor 255 255 255 130); (1%float, mkQColor 255 255 255 50)]).

(** * Vocabulary of the further properties *)

(** A run of operations, first to last. *)
Definition run_all (tk : Toolkit) (ops : list Op) (o : OSDPretty) : OSDPretty :=
  fold_left (fun st op => run tk op st) ops o.

(** The four pointer handlers. *)
Definition is_pointer_event (op : Op) : bool :=
  match op with
  | Op_enterEvent | Op_leaveEvent | Op_mousePressEvent _ | Op_mouseMoveEvent _ => true
  | _ => false
  end.

(** Settings, content, mode, timer and size. *)
Definition same_configuration (o o' : OSDPretty) : Prop :=
  mode_ o' = mode_ o /\
  foreground_color_ o' = foreground_color_ o /\
  background_color_ o' = background_color_ o /\
  background_opacity_ o' = background_opacity_ o /\
  popup_display_ o' = popup_display_ o /\
  popup_pos_ o' = popup_pos_ o /\
  timeout_ o' = timeout_ o /\
  ui_ o' = ui_ o /\
  w_size (widget o') = w_size (widget o) /\
  w_cursor (widget o') = w_cursor (widget o) /\
  w_update_pending (widget o') = w_update_pending (widget o).

(** Whether the widget is visible after an operation. *)
Definition visible_after (op : Op) (o : OSDPretty) : bool :=
  match op with
  | Op_mousePressEvent _ =>
      match mode_ o with
      | Mode_Popup => false
      | Mode_Draggable => w_visible (widget o)
      end
  | _ => w_visible (widget o)
  end.

(** The widget with its current placement written into the two placement
    settings, as a caller does that saves [current_display()] and
    [current_pos()] and has them loaded again. *)
Definition with_saved_placement (tk : Toolkit) (o : OSDPretty) : OSDPretty :=
  with_popup_pos (current_pos tk o) (with_popup_display (current_display tk o) o).

(** The area a tiled pixmap covers. *)
Definition tile_extent (c : DrawCall) : option QRect :=
  match c with
  | drawTiledPixmap x y w h _ _ => Some (mkQRect x y (x + w - 1) (y + h - 1))
  | _ => None
  end.

Definition QRect_inside (a b : QRect) : Prop :=
  left b <= left a /\ right a <= right b /\ top b <= top a /\ bottom a <= bottom b.

Definition QRect_disjoint (a b : QRect) : Prop :=
  right a < left b \/ right b < left a \/ bottom a < top b \/ bottom b < top a.

(** The content box of the paint routine. *)
Definition content_box (o : OSDPretty) : QRect :=
  QRect_adjusted kDropShadowSize kDropShadowSize
                 (Int.neg kDropShadowSize) (Int.neg kDropShadowSize) (rect o).

Definition shadow_edge_placed (o : OSDPretty) (c : DrawCall) : Prop :=
  match tile_extent c with
  | Some r => QRect_inside r (rect o) /\ QRect_disjoint r (content_box o)
  | None => True
  end.

(** * Properties *)

(** ** Integer arithmetic within range *)

Lemma Int_wrap_in_range (z : Z) : Int.in_range z -> Int.wrap z = z.
Proof.
  unfold Int.in_range, Int.min_int, Int.max_int, Int.wrap. intros H.
  rewrite Z.mod_small; lia.
Qed.

Lemma Int_add_exact (a b : Z) : Int.in_range (a + b) -> Int.add a b = a + b.
Proof. apply Int_wrap_in_range. Qed.

Lemma Int_sub_exact (a b : Z) : Int.in_range (a - b) -> Int.sub a b = a - b.
Proof. apply Int_wrap_in_range. Qed.

(** ** Clamping *)

Lemma qBound_max_min (lo v hi : Z) : qBound lo v hi = Z.max lo (Z.min hi v).
Proof.
  unfold qBound, qMax, qMin.
  destruct (Z.ltb_spec hi v);
    match goal with |- context [?a <? ?b] => destruct (Z.ltb_spec a b) end; lia.
Qed.

Lemma qBound_within (lo v hi : Z) : lo <= hi -> lo <= qBound lo v hi <= hi.
Proof. rewrite qBound_max_min. lia. Qed.

Lemma qBound_inside (lo v hi : Z) : lo <= v <= hi -> qBound lo v hi = v.
Proof. rewrite qBound_max_min. lia. Qed.

Lemma qBound_lower (lo v hi : Z) : lo <= qBound lo v hi.
Proof. rewrite qBound_max_min. lia. Qed.

Lemma Int_add_small a b : small a -> small b -> Int.add a b = a + b.
Proof.
  unfold small. intros. apply Int_add_exact.
  unfold Int.in_range, Int.min_int, Int.max_int. lia.
Qed.

Lemma Int_sub_small a b : small a -> small b -> Int.sub a b = a - b.
Proof.
  unfold small. intros. apply Int_sub_exact.
  unfold Int.in_range, Int.min_int, Int.max_int. lia.
Qed.

Lemma Int_add_sub_small a b c :
  small a -> small b -> small c -> Int.add a (Int.sub b c) = a + (b - c).
Proof.
  unfold small. intros. rewrite Int_sub_small by assumption.
  apply Int_add_exact. unfold Int.in_range, Int.min_int, Int.max_int. lia.
Qed.

(** ** What each handler leaves behind *)

Lemma Reposition_exec (tk : Toolkit) (o : OSDPretty) :
  exec (Reposition tk) o =
  let hint := sizeHint tk (ui_ o) in
  let geometry :=
    availableGeometry tk (Reposition_screen (screenCount tk) (popup_display_ o)) in
  let x := Int.add (px (popup_pos_ o)) (left geometry) in
  let y := Int.add (py (popup_pos_ o)) (top geometry) in
  with_widget
    (QWidget_with_pos
       (mkQPoint (qBound 0 x (Int.sub (right geometry) (wd hint)))
                 (qBound 0 y (Int.sub (bottom geometry) (ht hint))))
       (QWidget_with_size hint (widget o))) o.
Proof. reflexivity. Qed.

Lemma SetMode_exec (mode : Mode) (o : OSDPretty) :
  exec (SetMode mode) o =
  with_widget
    (QWidget_with_cursor
       (match mode with Mode_Popup => ArrowCursor | Mode_Draggable => OpenHandCursor end)
       (widget o))
    (with_mode mode o).
Proof. destruct mode; reflexivity. Qed.

Lemma mousePressEvent_exec (e : QMouseEvent) (o : OSDPretty) :
  exec (mousePressEvent e) o =
  match mode_ o with
  | Mode_Popup => with_widget (QWidget_with_visible false (widget o)) o
  | Mode_Draggable =>
      with_drag_start_pos (globalPos e) (with_original_window_pos (w_pos (widget o)) o)
  end.
Proof. unfold exec, mousePressEvent, bind, gets. cbn. destruct (mode_ o); reflexivity. Qed.

Lemma mouseMoveEvent_exec (tk : Toolkit) (e : QMouseEvent) (o : OSDPretty) :
  exec (mouseMoveEvent tk e) o =
  match mode_ o with
  | Mode_Popup => o
  | Mode_Draggable =>
      let new_pos :=
        QPoint_add (original_window_pos_ o) (QPoint_sub (globalPos e) (drag_start_pos_ o)) in
      let geometry := availableGeometryAt tk (globalPos e) in
      with_widget
        (QWidget_with_pos
           (mkQPoint
              (qBound (left geometry) (px new_pos)
                      (Int.sub (right geometry) (wd (w_size (widget o)))))
              (qBound (top geometry) (py new_pos)
                      (Int.sub (bottom geometry) (ht (w_size (widget o))))))
           (widget o)) o
  end.
Proof. unfold exec, mouseMoveEvent, bind, gets. cbn. destruct (mode_ o); reflexivity. Qed.

Example fresh_timer : timeout_ TwoScreens.fresh = mkQTimer 5000 None.
Proof. reflexivity. Qed.

Example shown_state :
  w_visible (widget TwoScreens.shown) = true /\
  mode_ TwoScreens.shown = Mode_Popup /\
  timeout_ TwoScreens.shown = mkQTimer 5000 (Some 1200).
Proof. repeat split. Qed.

(** ** Positioning *)

(** Where [Reposition] keeps the widget inside the target screen: the
    screen lies at non-negative coordinates, the stored offset is
    non-negative and the widget is no larger than the screen. *)
Lemma Reposition_within_geometry (tk : Toolkit) (o : OSDPretty) :
  let geometry :=
    availableGeometry tk (Reposition_screen (screenCount tk) (popup_display_ o)) in
  let o' := exec (Reposition tk) o in
  QRect_small geometry -> QPoint_small (popup_pos_ o) -> QSize_small (sizeHint tk (ui_ o)) ->
  0 <= left geometry -> 0 <= top geometry ->
  0 <= px (popup_pos_ o) -> 0 <= py (popup_pos_ o) ->
  left geometry <= right geometry - wd (w_size (widget o')) ->
  top geometry <= bottom geometry - ht (w_size (widget o')) ->
  left geometry <= px (w_pos (widget o')) <= right geometry - wd (w_size (widget o')) /\
  top geometry <= py (w_pos (widget o')) <= bottom geometry - ht (w_size (widget o')).
Proof.
  intros geometry o'. subst o'. rewrite Reposition_exec. cbn zeta.
  fold geometry. cbn [with_widget widget QWidget_with_pos QWidget_with_size w_pos w_size px py].
  intros (Hl & Ht & Hr & Hb) (Hx & Hy) (Hw & Hh) H0l H0t H0x H0y Hfx Hfy.
  rewrite !Int_add_small, !Int_sub_small by assumption.
  rewrite !qBound_max_min. lia.
Qed.

(** C1 -- the widget's bounding box after [Reposition()] is claimed to lie
    within the target screen for every stored offset and every screen.
    [Reposition] bounds the position below by 0 where [mouseMoveEvent]
    uses the screen's origin: for the screen to the left of the primary
    one and the offset (0, 0), the 300x100 widget is moved to (0, 0), which
    is outside the target screen's range -1920 <= x <= -301. *)
Theorem Reposition_leaves_left_screen :
  let o' := exec (Reposition TwoScreens.desktop) TwoScreens.on_left_screen in
  let geometry :=
    availableGeometry TwoScreens.desktop
      (Reposition_screen (screenCount TwoScreens.desktop)
                         (popup_display_ TwoScreens.on_left_screen)) in
  popup_pos_ TwoScreens.on_left_screen = mkQPoint 0 0 /\
  geometry = mkQRect (-1920) 0 (-1) 1079 /\
  w_size (widget o') = mkQSize 300 100 /\
  w_pos (widget o') = mkQPoint 0 0 /\
  ~ (left geometry <= px (w_pos (widget o')) <= right geometry - wd (w_size (widget o'))).
Proof.
  cbv zeta. repeat split; try reflexivity.
  vm_compute. intros [_ H]. apply H. reflexivity.
Qed.




Example Reposition_screen_indices :
  Reposition_screen 2 5 = -1 /\ Reposition_screen 2 2 = -1 /\
  Reposition_screen 2 (-1) = -1 /\ Reposition_screen 2 (-3) = -3 /\
  Reposition_screen 2 1 = 1.
Proof. repeat split. Qed.

(** ** Dragging *)

(** C5 -- in Draggable mode a press records the widget's position and the
    pointer's global position; the move that follows puts the widget at
    the recorded position plus the pointer's global displacement since the
    press, each coordinate brought into the range from the origin of the
    available geometry of the screen under the pointer's current position
    to that geometry's far edge less the widget's extent. *)
Theorem drag_follows_pointer (tk : Toolkit) (press move_to : QMouseEvent) (o : OSDPretty) :
  mode_ o = Mode_Draggable ->
  QPoint_small (w_pos (widget o)) ->
  QPoint_small (globalPos press) ->
  QPoint_small (globalPos move_to) ->
  QRect_small (availableGeometryAt tk (globalPos move_to)) ->
  QSize_small (w_size (widget o)) ->
  let pressed := exec (mousePressEvent press) o in
  let moved := exec (mouseMoveEvent tk move_to) pressed in
  let geometry := availableGeometryAt tk (globalPos move_to) in
  let x := px (w_pos (widget o)) + (px (globalPos move_to) - px (globalPos press)) in
  let y := py (w_pos (widget o)) + (py (globalPos move_to) - py (globalPos press)) in
  let max_x := right geometry - wd (w_size (widget o)) in
  let max_y := bottom geometry - ht (w_size (widget o)) in
  original_window_pos_ pressed = w_pos (widget o) /\
  drag_start_pos_ pressed = globalPos press /\
  w_pos (widget moved) =
    mkQPoint (Z.max (left geometry) (Z.min max_x x)) (Z.max (top geometry) (Z.min max_y y)) /\
  (left geometry <= max_x -> left geometry <= px (w_pos (widget moved)) <= max_x) /\
  (top geometry <= max_y -> top geometry <= py (w_pos (widget moved)) <= max_y) /\
  (left geometry <= x <= max_x -> px (w_pos (widget moved)) = x) /\
  (top geometry <= y <= max_y -> py (w_pos (widget moved)) = y).
Proof.
  intros Hmode (Hpx & Hpy) (Hsx & Hsy) (Hcx & Hcy) (Hl & Ht & Hr & Hb) (Hw & Hh).
  cbv zeta.
  rewrite !mousePressEvent_exec, Hmode, mouseMoveEvent_exec.
  cbn [mode_ with_drag_start_pos with_original_window_pos]. rewrite Hmode.
  cbn [with_drag_start_pos with_original_window_pos with_widget widget
       original_window_pos_ drag_start_pos_ QWidget_with_pos w_pos w_size
       QPoint_add QPoint_sub px py].
  rewrite !Int_add_sub_small, !Int_sub_small by assumption.
  rewrite !qBound_max_min.
  repeat split; intros; try reflexivity; cbn [px py]; lia.
Qed.

Lemma drag_follows_pointer_witness :
  let o := exec (SetMode Mode_Draggable) TwoScreens.fresh in
  let press := mkQMouseEvent (mkQPoint 100 100) (mkQPoint 100 100) in
  let move_to := mkQMouseEvent (mkQPoint 100 100) (mkQPoint (-500) 300) in
  w_pos (widget (exec (mouseMoveEvent TwoScreens.desktop move_to)
                      (exec (mousePressEvent press) o)))
  = mkQPoint (-641) 200.
Proof.
  cbv zeta.
  assert (Hpoint : forall x y, small x -> small y -> QPoint_small (mkQPoint x y))
    by (intros x y Hx Hy; split; assumption).
  destruct (drag_follows_pointer TwoScreens.desktop
              (mkQMouseEvent (mkQPoint 100 100) (mkQPoint 100 100))
              (mkQMouseEvent (mkQPoint 100 100) (mkQPoint (-500) 300))
              (exec (SetMode Mode_Draggable) TwoScreens.fresh)
              eq_refl) as (_ & _ & H & _).
  - apply Hpoint; unfold small; lia.
  - apply Hpoint; unfold small; lia.
  - apply Hpoint; unfold small; lia.
  - unfold QRect_small, small; cbn; lia.
  - unfold QSize_small, small; cbn; lia.
  - rewrite H. reflexivity.
Defined.

(** ** Dismissal by click *)

(** C8 -- in Popup mode the press handler hides the widget before it
    returns, wherever in the widget the press lands; nothing else changes. *)
Theorem press_in_popup_mode_hides (e : QMouseEvent) (o : OSDPretty) :
  mode_ o = Mode_Popup ->
  w_visible (widget (exec (mousePressEvent e) o)) = false /\
  exec (mousePressEvent e) o = with_widget (QWidget_with_visible false (widget o)) o.
Proof.
  intros Hmode. rewrite mousePressEvent_exec, Hmode. split; reflexivity.
Qed.

Lemma press_in_popup_mode_hides_witness :
  w_visible (widget TwoScreens.shown) = true /\
  w_visible (widget (exec (mousePressEvent (mkQMouseEvent (mkQPoint 7 9) (mkQPoint 7 9)))
                          TwoScreens.shown)) = false.
Proof.
  split; [ reflexivity | ].
  apply (press_in_popup_mode_hides (mkQMouseEvent (mkQPoint 7 9) (mkQPoint 7 9))
                                   TwoScreens.shown).
  reflexivity.
Defined.

(** ** Mode control *)

Lemma same_but_mode_and_cursor_refl (o : OSDPretty) : same_but_mode_and_cursor o o.
Proof. repeat split. Qed.

Lemma same_but_mode_and_cursor_SetMode (mode : Mode) (o o' : OSDPretty) :
  same_but_mode_and_cursor o o' -> same_but_mode_and_cursor o (exec (SetMode mode) o').
Proof.
  unfold same_but_mode_and_cursor. rewrite SetMode_exec. cbn. tauto.
Qed.

Lemma SetMode_all_frame (modes : list Mode) :
  forall o o', same_but_mode_and_cursor o o' ->
               same_but_mode_and_cursor o (SetMode_all modes o').
Proof.
  induction modes as [ | mode modes IH ]; intros o o' H; cbn.
  - exact H.
  - apply IH, same_but_mode_and_cursor_SetMode, H.
Qed.

Lemma last_nonempty_default {A : Type} (l : list A) :
  forall a d d', last (a :: l) d = last (a :: l) d'.
Proof.
  induction l as [ | b l IH ]; intros a d d'.
  - reflexivity.
  - change (last (b :: l) d = last (b :: l) d'). apply IH.
Qed.

Lemma SetMode_all_last (modes : list Mode) :
  forall o, mode_ (SetMode_all modes o) = last modes (mode_ o) /\
            w_cursor (widget (SetMode_all modes o))
            = last (map cursor_of_mode modes) (w_cursor (widget o)).
Proof.
  induction modes as [ | mode modes IH ]; intros o.
  - split; reflexivity.
  - cbn [SetMode_all fold_left]. fold (SetMode_all modes (exec (SetMode mode) o)).
    destruct (IH (exec (SetMode mode) o)) as [Hm Hc]. rewrite Hm, Hc.
    rewrite SetMode_exec. destruct modes as [ | m modes ].
    + split; reflexivity.
    + split.
      * change (last (mode :: m :: modes) (mode_ o)) with (last (m :: modes) (mode_ o)).
        apply last_nonempty_default.
      * change (last (map cursor_of_mode (mode :: m :: modes)) (w_cursor (widget o)))
          with (last (map cursor_of_mode (m :: modes)) (w_cursor (widget o))).
        apply last_nonempty_default.
Qed.

(** C9 -- [SetMode] stores the mode and sets the cursor, the arrow for
    Popup and the open hand for Draggable, and changes nothing else; after
    any sequence of [SetMode] calls the colours, the opacity, the popup
    position, the display index and the timer, like all the rest of the
    state, are what they were, and mode and cursor are those of the last
    call. *)
Theorem SetMode_changes_mode_and_cursor_only (mode : Mode) (modes : list Mode)
  (o : OSDPretty) :
  exec (SetMode mode) o =
    with_widget (QWidget_with_cursor (cursor_of_mode mode) (widget o)) (with_mode mode o) /\
  same_but_mode_and_cursor o (SetMode_all modes o) /\
  mode_ (SetMode_all modes o) = last modes (mode_ o) /\
  w_cursor (widget (SetMode_all modes o))
  = last (map cursor_of_mode modes) (w_cursor (widget o)).
Proof.
  split; [ apply SetMode_exec | ].
  split; [ apply SetMode_all_frame, same_but_mode_and_cursor_refl | ].
  apply SetMode_all_last.
Qed.

Example SetMode_three_times :
  let o := exec (set_background_opacity 0.5%float)
             (exec (set_background_color (qRgb 10 20 30)) TwoScreens.shown) in
  let o' := SetMode_all [Mode_Draggable; Mode_Popup; Mode_Draggable] o in
  background_color_ o' = mkQColor 10 20 30 255 /\
  background_opacity_ o' = 0.5%float /\
  mode_ o' = Mode_Draggable /\
  w_cursor (widget o') = OpenHandCursor.
Proof. repeat split. Qed.

(** ** Content update and the auto-hide timer *)

Lemma SetMessage_exec (tk : Toolkit) (summary message : string) (image : QImage)
  (o : OSDPretty) :
  exec (SetMessage tk summary message image) o =
  let o1 := with_ui (SetMessage_ui tk summary message image (ui_ o)) o in
  if w_visible (widget o) then
    let o2 := exec (Reposition tk) o1 in
    match mode_ o with
    | Mode_Popup => with_timeout (QTimer_start (timeout_ o)) o2
    | Mode_Draggable => o2
    end
  else o1.
Proof.
  destruct o as [[visible p s c level pending] u mode fg bg a d pp t owp dsp].
  destruct visible, mode, image; reflexivity.
Qed.

Lemma showEvent_exec (tk : Toolkit) (o : OSDPretty) :
  exec (showEvent tk) o =
  let o1 := exec (Reposition tk) o in
  let o2 := with_widget (QWidget_with_windowOpacity 1.0%float (widget o1)) o1 in
  match mode_ o with
  | Mode_Popup => with_timeout (QTimer_start (timeout_ o)) o2
  | Mode_Draggable => o2
  end.
Proof.
  destruct o as [[visible p s c level pending] u mode fg bg a d pp t owp dsp].
  destruct mode; reflexivity.
Qed.

Lemma set_popup_duration_exec (msec : Z) (o : OSDPretty) :
  exec (set_popup_duration msec) o = with_timeout (QTimer_setInterval msec (timeout_ o)) o.
Proof. reflexivity. Qed.

(** C6 -- [SetMessage] on a visible widget in Popup mode restarts the
    timer with the whole interval to go, however far the previous countdown
    had come; if nothing else happens, the widget is still visible after
    any time shorter than the interval (5000 ms as the constructor sets
    it). *)
Theorem SetMessage_restarts_countdown (tk : Toolkit) (summary message : string)
  (image : QImage) (o : OSDPretty) (msec : Z) :
  w_visible (widget o) = true ->
  mode_ o = Mode_Popup ->
  0 <= msec < interval (timeout_ o) ->
  let o' := exec (SetMessage tk summary message image) o in
  timeout_ o' = mkQTimer (interval (timeout_ o)) (Some (interval (timeout_ o))) /\
  w_visible (widget o') = true /\
  w_visible (widget (elapse msec o')) = true /\
  remaining (timeout_ (elapse msec o')) = Some (interval (timeout_ o) - msec).
Proof.
  intros Hvisible Hmode Hmsec. cbv zeta.
  rewrite SetMessage_exec. cbv zeta. rewrite Hvisible, Hmode, Reposition_exec.
  cbv zeta. unfold elapse.
  cbn [timeout_ with_timeout with_widget with_ui widget QTimer_start remaining interval
       QWidget_with_pos QWidget_with_size w_visible].
  destruct (Z.ltb_spec msec (interval (timeout_ o))) as [ _ | Hge ]; [ | lia ].
  cbn [timeout_ with_timeout widget w_visible remaining].
  repeat split; assumption.
Qed.

Lemma SetMessage_restarts_countdown_witness :
  remaining (timeout_ TwoScreens.shown) = Some 1200 /\
  w_visible (widget (elapse 4999 (exec (SetMessage TwoScreens.desktop "Title" "Artist"
                                                   QImage_null) TwoScreens.shown))) = true.
Proof.
  split; [ reflexivity | ].
  apply (SetMessage_restarts_countdown TwoScreens.desktop "Title" "Artist" QImage_null
                                       TwoScreens.shown (msec := 4999)).
  - reflexivity.
  - reflexivity.
  - cbn. lia.
Defined.

Example countdown_runs_out :
  let o' := exec (SetMessage TwoScreens.desktop "Title" "Artist" QImage_null) TwoScreens.shown in
  w_visible (widget (elapse 5000 o')) = false /\
  w_visible (widget (elapse 1200 TwoScreens.shown)) = false.
Proof. split; reflexivity. Qed.

Lemma timeout_run (tk : Toolkit) (op : Op) (o : OSDPretty) :
  timeout_ (run tk op o) = timer_after op o.
Proof.
  destruct o as [[visible p s c level pending] u mode fg bg a d pp t owp dsp].
  destruct op; cbn [run]; rewrite ?SetMode_exec, ?SetMessage_exec;
    destruct visible, mode; reflexivity.
Qed.

(** C10, counterexample -- the widget is visible with 1200 ms of its
    5000 ms countdown left; [set_popup_duration(5000)] hands the interval
    to the running timer, which starts over with 5000 ms to go. *)
Lemma set_popup_duration_rearms : ~ rearmed_only_by_show_or_message.
Proof.
  intros H.
  destruct (H TwoScreens.desktop (Op_set_popup_duration 5000) TwoScreens.shown)
    as [ [E _] | (summary & message & image & E & _) ].
  - unfold rearms. vm_compute. split; [ reflexivity | discriminate ].
  - discriminate E.
  - discriminate E.
Qed.

(** C10, amended -- [SetMessage] on a widget that is not visible sets the
    icon and both texts and changes nothing else: the position and the
    timer stay as they are, in either mode.  An inactive timer is started
    only by [showEvent] in Popup mode and by [SetMessage] on a visible
    widget in Popup mode, which both restart it when it is running; the
    one other operation that touches the timer is [set_popup_duration],
    which never starts an inactive timer and makes a running one start
    over with the new interval. *)
Theorem SetMessage_hidden_and_timer_starts (tk : Toolkit) (op : Op)
  (summary message : string) (image : QImage) (o : OSDPretty) :
  (w_visible (widget o) = false ->
   let o' := exec (SetMessage tk summary message image) o in
   o' = with_ui (SetMessage_ui tk summary message image (ui_ o)) o /\
   icon_visible (ui_ o') = negb (isNull image) /\
   summary_text (ui_ o') = summary /\
   message_text (ui_ o') = message /\
   w_pos (widget o') = w_pos (widget o) /\
   timeout_ o' = timeout_ o) /\
  timeout_ (run tk op o) = timer_after op o /\
  (remaining (timeout_ o) = None ->
   remaining (timeout_ (run tk op o)) <> None ->
   (op = Op_showEvent /\ mode_ o = Mode_Popup) \/
   (exists summary' message' image',
       op = Op_SetMessage summary' message' image' /\
       w_visible (widget o) = true /\ mode_ o = Mode_Popup)) /\
  (forall msec, op = Op_set_popup_duration msec ->
     remaining (timeout_ (run tk op o))
     = match remaining (timeout_ o) with Some _ => Some msec | None => None end).
Proof.
  split; [ | split; [ | split ] ].
  - intros Hhidden. cbv zeta. rewrite SetMessage_exec. cbv zeta. rewrite Hhidden.
    repeat split.
  - apply timeout_run.
  - intros Hinactive. rewrite timeout_run.
    destruct op; cbn [timer_after]; try (intros Hrun; elim Hrun; exact Hinactive).
    + destruct (w_visible (widget o)) eqn:Hvisible;
        [ | intros Hrun; elim Hrun; exact Hinactive ].
      destruct (mode_ o) eqn:Hmode; [ | intros Hrun; elim Hrun; exact Hinactive ].
      intros _. right. exists summary0, message0, image0. repeat split.
    + destruct (mode_ o) eqn:Hmode; [ | intros Hrun; elim Hrun; exact Hinactive ].
      intros _. left. split; reflexivity.
    + cbn. rewrite Hinactive. intros Hrun. elim Hrun. reflexivity.
  - intros msec ->. reflexivity.
Qed.

Lemma SetMessage_hidden_and_timer_starts_witness :
  let o := TwoScreens.on_left_screen in
  let o' := exec (SetMessage TwoScreens.desktop "Title" "Artist" QImage_null) o in
  w_visible (widget o) = false /\
  w_pos (widget o') = w_pos (widget o) /\
  timeout_ o' = mkQTimer 5000 None.
Proof.
  cbv zeta. split; [ reflexivity | ].
  destruct (SetMessage_hidden_and_timer_starts TwoScreens.desktop Op_enterEvent
              "Title" "Artist" QImage_null TwoScreens.on_left_screen) as [H _].
  destruct (H eq_refl) as (_ & _ & _ & _ & Hpos & Htimer).
  split; [ exact Hpos | rewrite Htimer; reflexivity ].
Defined.

(** ** Appearance setters *)

(** C2, counterexample -- on the visible widget with no repaint pending,
    [set_foreground_color] stores the colour and sets the labels' palettes
    but never calls [update()]: no repaint is pending afterwards. *)
Lemma set_foreground_color_requests_no_repaint : ~ setters_as_stated.
Proof.
  intros H.
  destruct (H TwoScreens.shown (qRgb 255 255 255) 0.5%float 9000 eq_refl)
    as (_ & _ & Hfg & _).
  vm_compute in Hfg. discriminate Hfg.
Qed.

(** The other part that fails: the new interval reaches a running timer. *)
Lemma set_popup_duration_running_timer :
  remaining (timeout_ TwoScreens.shown) = Some 1200 /\
  remaining (timeout_ (exec (set_popup_duration 9000) TwoScreens.shown)) = Some 9000.
Proof. split; reflexivity. Qed.

(** C2, amended -- [set_background_color] and [set_background_opacity]
    store their value and call [update()] exactly when the widget is
    visible.  [set_foreground_color] stores the colour and sets it as the
    text colour of the two labels' palettes; it does not call [update()],
    visible or not.  [set_popup_duration] never calls [update()]; it hands
    the interval to the timer, so that every later start counts the new
    interval, an inactive timer stays inactive and a running one starts
    over with the new interval. *)
Theorem setters_repaint_and_duration (o : OSDPretty) (color : Z) (opacity : qreal)
  (msec : Z) :
  (let o' := exec (set_background_color color) o in
   background_color_ o' = QColor_fromRgb color /\
   w_update_pending (widget o')
   = (w_visible (widget o) || w_update_pending (widget o))%bool) /\
  (let o' := exec (set_background_opacity opacity) o in
   background_opacity_ o' = opacity /\
   w_update_pending (widget o')
   = (w_visible (widget o) || w_update_pending (widget o))%bool) /\
  (let o' := exec (set_foreground_color color) o in
   foreground_color_ o' = QColor_fromRgb color /\
   summary_palette (ui_ o') = Some (QColor_fromRgb color) /\
   message_palette (ui_ o') = Some (QColor_fromRgb color) /\
   widget o' = widget o) /\
  (let o' := exec (set_popup_duration msec) o in
   o' = with_timeout (QTimer_setInterval msec (timeout_ o)) o /\
   widget o' = widget o /\
   interval (timeout_ o') = msec /\
   remaining (QTimer_start (timeout_ o')) = Some msec /\
   remaining (timeout_ o')
   = match remaining (timeout_ o) with Some _ => Some msec | None => None end).
Proof.
  destruct o as [[visible p s c level pending] u mode fg bg a d pp t owp dsp].
  cbv zeta. repeat split; destruct visible; reflexivity.
Qed.

(** ** The icon *)

Lemma QImage_sized_size (w h : Z) :
  0 < w -> 0 < h ->
  TwoScreens.QImage_sized (mkQSize w h) = QImage_of_size (Z.to_pos w) (Z.to_pos h).
Proof.
  intros Hw Hh. unfold TwoScreens.QImage_sized. cbn [wd ht].
  destruct (Z.ltb_spec 0 w); [ | lia ]. destruct (Z.ltb_spec 0 h); [ | lia ].
  reflexivity.
Qed.

Lemma QImage_sized_null (w h : Z) :
  w <= 0 \/ h <= 0 -> TwoScreens.QImage_sized (mkQSize w h) = QImage_null.
Proof.
  intros H. unfold TwoScreens.QImage_sized. cbn [wd ht].
  destruct (Z.ltb_spec 0 w); destruct (Z.ltb_spec 0 h); try reflexivity. lia.
Qed.

Lemma TwoScreens_scaled_keeps_aspect_ratio : scaled_keeps_aspect_ratio TwoScreens.desktop.
Proof.
  intros image w h tm Hw Hh. cbv zeta. cbn [scaled TwoScreens.desktop].
  unfold Int.max_int in *.
  destruct image as [ | iw ih ]; [ cbn; lia | ].
  unfold TwoScreens.QImage_scaled.
  destruct (Z.leb_spec w 0); [ lia | ]. destruct (Z.leb_spec h 0); [ lia | ].
  cbn [orb]. unfold TwoScreens.QSize_scale. cbn [wd ht orb Z.eqb].
  cbn [QImage_width QImage_height].
  set (sw := Z.pos iw). set (sh := Z.pos ih).
  assert (HW : 0 < sw) by (subst sw; lia). assert (HH : 0 < sh) by (subst sh; lia).
  rewrite !Z.quot_div_nonneg by nia.
  pose proof (Z.mul_div_le (h * sw) sh HH) as Hrw1.
  pose proof (Z.mul_succ_div_gt (h * sw) sh HH) as Hrw2.
  pose proof (Z.mul_div_le (w * sh) sw HW) as Hq1.
  pose proof (Z.mul_succ_div_gt (w * sh) sw HW) as Hq2.
  assert (Hrw0 : 0 <= h * sw / sh) by (apply Z.div_pos; nia).
  assert (Hq0 : 0 <= w * sh / sw) by (apply Z.div_pos; nia).
  set (rw := h * sw / sh) in *. set (q := w * sh / sw) in *.
  destruct (Z.leb_spec rw w) as [ Hfit | Hwide ].
  - rewrite Int_wrap_in_range by (unfold Int.in_range, Int.min_int, Int.max_int; lia).
    destruct (Z.eq_dec rw 0) as [ -> | Hpos ].
    + rewrite QImage_sized_null by lia. cbn. repeat split; try lia; discriminate.
    + rewrite QImage_sized_size by lia. cbn [QImage_width QImage_height isNull].
      rewrite !Z2Pos.id by lia. repeat split; try lia.
  - assert (Hqh : q < h) by nia.
    rewrite Int_wrap_in_range by (unfold Int.in_range, Int.min_int, Int.max_int; lia).
    destruct (Z.eq_dec q 0) as [ -> | Hpos ].
    + rewrite QImage_sized_null by lia. cbn. repeat split; try lia; discriminate.
    + rewrite QImage_sized_size by lia. cbn [QImage_width QImage_height isNull].
      rewrite !Z2Pos.id by lia. repeat split; try lia.
Qed.

(** C7 -- [SetMessage] always sets the two texts.  With a null image it
    hides the icon; with any other image it shows the icon and gives it
    the image scaled into the 100x100 box with [KeepAspectRatio]: neither
    dimension of the icon's pixmap exceeds 100 and its proportions are
    those of the image up to whole pixels. *)
Theorem SetMessage_icon_and_texts (tk : Toolkit) (summary message : string)
  (image : QImage) (o : OSDPretty) :
  scaled_keeps_aspect_ratio tk ->
  let o' := exec (SetMessage tk summary message image) o in
  let icon := scaled tk image kMaxIconSize kMaxIconSize KeepAspectRatio SmoothTransformation in
  summary_text (ui_ o') = summary /\
  message_text (ui_ o') = message /\
  (isNull image = true ->
   icon_visible (ui_ o') = false /\ icon_pixmap (ui_ o') = icon_pixmap (ui_ o)) /\
  (isNull image = false ->
   icon_visible (ui_ o') = true /\
   icon_pixmap (ui_ o') = Some (QPixmap_fromImage icon) /\
   QImage_width icon <= 100 /\
   QImage_height icon <= 100 /\
   (isNull icon = false ->
    Z.abs (QImage_width icon * QImage_height image - QImage_height icon * QImage_width image)
    < Z.max (QImage_width image) (QImage_height image))).
Proof.
  intros Hscaled. cbv zeta.
  assert (Hui : ui_ (exec (SetMessage tk summary message image) o)
                = SetMessage_ui tk summary message image (ui_ o)).
  { rewrite SetMessage_exec. cbv zeta.
    destruct (w_visible (widget o)); [ | reflexivity ].
    rewrite Reposition_exec. destruct (mode_ o); reflexivity. }
  rewrite Hui. unfold SetMessage_ui. cbn [summary_text message_text icon_visible icon_pixmap].
  split; [ reflexivity | split; [ reflexivity | split ] ].
  - intros ->. split; reflexivity.
  - intros ->. split; [ reflexivity | split; [ reflexivity | ] ].
    apply (Hscaled image kMaxIconSize kMaxIconSize SmoothTransformation);
      unfold kMaxIconSize, Int.max_int; lia.
Qed.

Lemma SetMessage_icon_and_texts_witness :
  let cover := QImage_of_size 640 480 in
  let o' := exec (SetMessage TwoScreens.desktop "Title" "Artist" cover) TwoScreens.shown in
  summary_text (ui_ o') = "Title"%string /\
  icon_visible (ui_ o') = true /\
  icon_pixmap (ui_ o') = Some (QPixmap_fromImage (QImage_of_size 100 75)).
Proof.
  cbv zeta.
  destruct (SetMessage_icon_and_texts "Title" "Artist" (QImage_of_size 640 480)
              TwoScreens.shown TwoScreens_scaled_keeps_aspect_ratio)
    as (Hsummary & _ & _ & Hicon).
  destruct (Hicon eq_refl) as (Hshown & Hpixmap & _).
  split; [ exact Hsummary | split; [ exact Hshown | ] ].
  rewrite Hpixmap. reflexivity.
Defined.

Example SetMessage_null_image :
  let o' := exec (SetMessage TwoScreens.desktop "Title" "Artist" QImage_null) TwoScreens.shown in
  icon_visible (ui_ o') = false /\ message_text (ui_ o') = "Artist"%string.
Proof. split; reflexivity. Qed.

Example scaled_wide_and_tall :
  TwoScreens.QImage_scaled (QImage_of_size 50 20) 100 100 KeepAspectRatio SmoothTransformation
  = QImage_of_size 100 40 /\
  TwoScreens.QImage_scaled (QImage_of_size 300 900) 100 100 KeepAspectRatio SmoothTransformation
  = QImage_of_size 33 100.
Proof. split; reflexivity. Qed.

(** ** Painting *)

Lemma Int_neg_kDropShadowSize : Int.neg kDropShadowSize = - kDropShadowSize.
Proof. vm_compute. reflexivity. Qed.

(** C4 -- the paint routine draws three rounded rectangles over the same
    box, after the eight shadow pieces.  The fill is drawn while the
    painter's opacity is [background_opacity_]; the opacity is set back to
    1.0 before the gradient overlay, so the overlay, white with alpha 130
    at the top and 50 at the bottom, and the border after it are drawn at
    full opacity, whatever [background_opacity_] is. *)
Theorem paintEvent_opacity (tk : Toolkit) (o : OSDPretty) :
  let box := QRect_adjusted kDropShadowSize kDropShadowSize
               (- kDropShadowSize) (- kDropShadowSize) (rect o) in
  let drawn := p_drawn (paintEvent tk o) in
  skipn 8 drawn =
    [ drawRoundedRect box kBorderRadius kBorderRadius
        (SolidBrush (background_color_ o)) DefaultPen (background_opacity_ o);
      drawRoundedRect box kBorderRadius kBorderRadius
        (gloss (ht (w_size (widget o)))) DefaultPen 1.0%float;
      drawRoundedRect box kBorderRadius kBorderRadius
        NoBrush (Pen (darker tk (background_color_ o) 150) 2) 1.0%float ] /\
  filter is_rounded_rect drawn = skipn 8 drawn /\
  map opacity_of (firstn 8 drawn) = repeat 1.0%float 8 /\
  p_opacity (paintEvent tk o) = 1.0%float /\
  (forall a : qreal,
      skipn 9 (p_drawn (paintEvent tk (with_background_opacity a o))) = skipn 9 drawn).
Proof.
  cbv zeta. unfold paintEvent. cbv zeta. rewrite Int_neg_kDropShadowSize.
  cbn [p_drawn draw p_drawPixmap p_drawTiledPixmap p_drawRoundedRect setBrush setPen
       setOpacity setRenderHint QPainter_begin p_opacity p_brush p_pen p_hints
       app skipn firstn filter is_rounded_rect map opacity_of repeat setColorAt
       gradient_start gradient_finalStop gradient_stops
       with_background_opacity background_color_ widget].
  split; [ | split; [ | split; [ | split ] ] ]; reflexivity.
Qed.

Example paintEvent_half_transparent :
  let o := exec (set_background_opacity 0.5%float) TwoScreens.shown in
  map opacity_of (skipn 8 (p_drawn (paintEvent TwoScreens.desktop o)))
  = [0.5%float; 1.0%float; 1.0%float].
Proof. vm_compute. reflexivity. Qed.


(** * Further properties *)

(** ** Placement *)

(** X1 -- [Reposition] is idempotent: size and position are computed from
    the content and the placement settings alone, so a second call changes
    nothing. *)
Theorem Reposition_idempotent (tk : Toolkit) (o : OSDPretty) :
  exec (Reposition tk) (exec (Reposition tk) o) = exec (Reposition tk) o.
Proof. rewrite !Reposition_exec. reflexivity. Qed.

(** X2 -- whatever the screen and the stored offset, [Reposition] never
    puts the widget at a negative coordinate.  Where the far edge of the
    screen less the widget's extent is not negative the widget does not
    reach past it; where it is negative the coordinate is 0. *)
Theorem Reposition_position_range (tk : Toolkit) (o : OSDPretty) :
  let geometry :=
    availableGeometry tk (Reposition_screen (screenCount tk) (popup_display_ o)) in
  let o' := exec (Reposition tk) o in
  let max_x := right geometry - wd (w_size (widget o')) in
  let max_y := bottom geometry - ht (w_size (widget o')) in
  QRect_small geometry ->
  QSize_small (sizeHint tk (ui_ o)) ->
  w_size (widget o') = sizeHint tk (ui_ o) /\
  0 <= px (w_pos (widget o')) /\
  0 <= py (w_pos (widget o')) /\
  (0 <= max_x -> px (w_pos (widget o')) <= max_x) /\
  (0 <= max_y -> py (w_pos (widget o')) <= max_y) /\
  (max_x < 0 -> px (w_pos (widget o')) = 0) /\
  (max_y < 0 -> py (w_pos (widget o')) = 0).
Proof.
  cbv zeta. rewrite Reposition_exec. cbv zeta.
  cbn [with_widget widget QWidget_with_pos QWidget_with_size w_pos w_size px py].
  intros (Hl & Ht & Hr & Hb) (Hw & Hh).
  rewrite (Int_sub_small Hr Hw), (Int_sub_small Hb Hh), !qBound_max_min.
  repeat split; try reflexivity; lia.
Qed.

Lemma Reposition_position_range_witness :
  let o' := exec (Reposition TwoScreens.desktop)
                 (with_popup_pos (mkQPoint 5000 (-40)) TwoScreens.fresh) in
  w_pos (widget o') = mkQPoint 1619 0.
Proof.
  cbv zeta.
  destruct (Reposition_position_range TwoScreens.desktop
              (with_popup_pos (mkQPoint 5000 (-40)) TwoScreens.fresh))
    as (_ & Hx & Hy & Hmax & _).
  - unfold QRect_small, small; cbn; lia.
  - unfold QSize_small, small; cbn; lia.
  - reflexivity.
Defined.

(** X3 -- [current_pos()] gives back the stored offset: after a
    [Reposition] that did not have to clamp, on a desktop that finds the
    widget on the screen it was placed on, [current_pos()] is
    [popup_pos_]. *)
Theorem current_pos_after_Reposition (tk : Toolkit) (o : OSDPretty) :
  let geometry :=
    availableGeometry tk (Reposition_screen (screenCount tk) (popup_display_ o)) in
  let o' := exec (Reposition tk) o in
  let hint := sizeHint tk (ui_ o) in
  QRect_small geometry -> QPoint_small (popup_pos_ o) -> QSize_small hint ->
  0 <= px (popup_pos_ o) + left geometry <= right geometry - wd hint ->
  0 <= py (popup_pos_ o) + top geometry <= bottom geometry - ht hint ->
  availableGeometry tk (current_display tk o') = geometry ->
  current_pos tk o' = popup_pos_ o.
Proof.
  cbv zeta. intros (Hl & Ht & Hr & Hb) (Hx & Hy) (Hw & Hh) Hfx Hfy Hscreen.
  unfold current_pos. rewrite Hscreen. rewrite Reposition_exec. cbv zeta.
  cbn [with_widget widget QWidget_with_pos QWidget_with_size w_pos w_size px py].
  rewrite (Int_add_small Hx Hl), (Int_add_small Hy Ht).
  rewrite (Int_sub_small Hr Hw), (Int_sub_small Hb Hh).
  rewrite !qBound_inside by lia.
  unfold small in *.
  rewrite !Int_sub_exact by (unfold Int.in_range, Int.min_int, Int.max_int; lia).
  destruct (popup_pos_ o) as [x y]. cbn [px py]. f_equal; lia.
Qed.

Lemma current_pos_after_Reposition_witness :
  current_pos TwoScreens.desktop
    (exec (Reposition TwoScreens.desktop)
          (with_popup_pos (mkQPoint 120 40) TwoScreens.fresh))
  = mkQPoint 120 40.
Proof.
  apply (current_pos_after_Reposition TwoScreens.desktop
           (with_popup_pos (mkQPoint 120 40) TwoScreens.fresh)).
  - unfold QRect_small, small; cbn; lia.
  - unfold QPoint_small, small; cbn; lia.
  - unfold QSize_small, small; cbn; lia.
  - cbn; lia.
  - cbn; lia.
  - reflexivity.
Defined.

(** X4 -- saving and restoring a placement: when [current_display()] and
    [current_pos()] are stored as the placement settings, [Reposition]
    puts the widget back where it was, provided the display index is one
    of the connected screens, the widget has the size its content asks for
    and it lay between coordinate 0 and the screen's far edge less its
    extent. *)
Theorem Reposition_restores_saved_placement (tk : Toolkit) (o : OSDPretty) :
  let geometry := availableGeometry tk (current_display tk o) in
  let p := w_pos (widget o) in
  let size := w_size (widget o) in
  0 <= current_display tk o < screenCount tk ->
  QRect_small geometry -> QPoint_small p -> QSize_small size ->
  sizeHint tk (ui_ o) = size ->
  0 <= px p <= right geometry - wd size ->
  0 <= py p <= bottom geometry - ht size ->
  w_pos (widget (exec (Reposition tk) (with_saved_placement tk o))) = p.
Proof.
  cbv zeta. intros Hscreen (Hl & Ht & Hr & Hb) (Hx & Hy) (Hw & Hh) Hhint Hfx Hfy.
  rewrite Reposition_exec. cbv zeta. unfold with_saved_placement, current_pos.
  cbn [with_widget widget QWidget_with_pos QWidget_with_size w_pos w_size px py
       with_popup_pos with_popup_display popup_pos_ popup_display_ ui_].
  unfold Reposition_screen.
  destruct (Z.geb_spec (current_display tk o) (screenCount tk)); [ lia | ].
  rewrite Hhint.
  rewrite (Int_sub_small Hx Hl), (Int_sub_small Hy Ht).
  rewrite (Int_sub_small Hr Hw), (Int_sub_small Hb Hh).
  unfold small in *.
  rewrite !Int_add_exact by (unfold Int.in_range, Int.min_int, Int.max_int; lia).
  rewrite !qBound_inside by lia.
  destruct (w_pos (widget o)) as [x y]. cbn [px py]. f_equal; lia.
Qed.

Lemma Reposition_restores_saved_placement_witness :
  let o := exec (Reposition TwoScreens.desktop)
                (with_popup_pos (mkQPoint 700 300) TwoScreens.fresh) in
  w_pos (widget o) = mkQPoint 700 300 /\
  w_pos (widget (exec (Reposition TwoScreens.desktop)
                      (with_saved_placement TwoScreens.desktop o)))
  = mkQPoint 700 300.
Proof.
  cbv zeta. split; [ reflexivity | ].
  apply (Reposition_restores_saved_placement TwoScreens.desktop
           (exec (Reposition TwoScreens.desktop)
                 (with_popup_pos (mkQPoint 700 300) TwoScreens.fresh))).
  - vm_compute; repeat split; discriminate.
  - vm_compute; repeat split; discriminate.
  - vm_compute; repeat split; discriminate.
  - vm_compute; repeat split; discriminate.
  - reflexivity.
  - vm_compute; repeat split; discriminate.
  - vm_compute; repeat split; discriminate.
Defined.

(** ** Dragging, continued *)

(** X5 -- a drag does not accumulate: the position after a move depends
    on the press record and on that move alone, so after two moves the
    widget is where the second one alone would have put it. *)
Theorem mouseMoveEvent_last_move_wins (tk : Toolkit) (e1 e2 : QMouseEvent)
  (o : OSDPretty) :
  exec (mouseMoveEvent tk e2) (exec (mouseMoveEvent tk e1) o)
  = exec (mouseMoveEvent tk e2) o.
Proof.
  rewrite !mouseMoveEvent_exec.
  destruct o as [[visible p s c level pending] u mode fg bg a d pp t owp dsp].
  destruct mode; reflexivity.
Qed.

(** X6 -- a widget wider (taller) than the available geometry under the
    pointer is held with its left (top) edge on the origin of that
    geometry, wherever it is dragged. *)
Theorem drag_oversize_widget (tk : Toolkit) (e : QMouseEvent) (o : OSDPretty) :
  let geometry := availableGeometryAt tk (globalPos e) in
  let moved := exec (mouseMoveEvent tk e) o in
  mode_ o = Mode_Draggable ->
  QRect_small geometry -> QSize_small (w_size (widget o)) ->
  (right geometry - wd (w_size (widget o)) < left geometry ->
   px (w_pos (widget moved)) = left geometry) /\
  (bottom geometry - ht (w_size (widget o)) < top geometry ->
   py (w_pos (widget moved)) = top geometry).
Proof.
  cbv zeta. intros Hmode (Hl & Ht & Hr & Hb) (Hw & Hh).
  rewrite mouseMoveEvent_exec, Hmode. cbv zeta.
  cbn [with_widget widget QWidget_with_pos w_pos px py].
  rewrite (Int_sub_small Hr Hw), (Int_sub_small Hb Hh), !qBound_max_min.
  split; intros; lia.
Qed.

Lemma drag_oversize_widget_witness :
  let o := exec (resize (mkQSize 2400 200)) (exec (SetMode Mode_Draggable) TwoScreens.fresh) in
  let e := mkQMouseEvent (mkQPoint 10 10) (mkQPoint (-900) 500) in
  px (w_pos (widget (exec (mouseMoveEvent TwoScreens.desktop e) o))) = -1920.
Proof.
  cbv zeta.
  destruct (drag_oversize_widget TwoScreens.desktop
              (mkQMouseEvent (mkQPoint 10 10) (mkQPoint (-900) 500))
              (exec (resize (mkQSize 2400 200))
                    (exec (SetMode Mode_Draggable) TwoScreens.fresh))
              eq_refl) as [Hx _].
  - unfold QRect_small, small; cbn; lia.
  - unfold QSize_small, small; cbn; lia.
  - apply Hx. cbn. lia.
Defined.

(** ** Pointer events *)

Lemma same_configuration_refl (o : OSDPretty) : same_configuration o o.
Proof. repeat split. Qed.

Lemma same_configuration_trans (o1 o2 o3 : OSDPretty) :
  same_configuration o1 o2 -> same_configuration o2 o3 -> same_configuration o1 o3.
Proof.
  unfold same_configuration. intros H12 H23.
  repeat match goal with H : _ /\ _ |- _ => destruct H end.
  repeat split; etransitivity; eassumption.
Qed.

Lemma pointer_event_step (tk : Toolkit) (op : Op) (o : OSDPretty) :
  is_pointer_event op = true ->
  same_configuration o (run tk op o) /\
  (mode_ o = Mode_Popup -> w_pos (widget (run tk op o)) = w_pos (widget o)) /\
  (mode_ o = Mode_Draggable ->
   w_visible (widget (run tk op o)) = w_visible (widget o) /\
   (w_windowOpacity (widget (run tk op o)) = w_windowOpacity (widget o) \/
    w_windowOpacity (widget (run tk op o)) = 1.0%float)).
Proof.
  destruct o as [[visible p s c level pending] u mode fg bg a d pp t owp dsp].
  destruct op; try discriminate; intros _; cbn [run];
    rewrite ?mousePressEvent_exec, ?mouseMoveEvent_exec;
    destruct mode; cbn;
    (split; [ repeat split | split; [ intros E | intros E; split ] ]);
    try discriminate E; try reflexivity; auto.
Qed.

(** X7 -- pointer events (enter, leave, press, move), in any number and
    order and in either mode, leave the settings, the content, the mode,
    the timer and the size as they are; in Popup mode they also leave the
    position as it is. *)
Theorem pointer_events_keep_configuration (tk : Toolkit) (ops : list Op) :
  forall o : OSDPretty,
    forallb is_pointer_event ops = true ->
    same_configuration o (run_all tk ops o) /\
    (mode_ o = Mode_Popup ->
     w_pos (widget (run_all tk ops o)) = w_pos (widget o)).
Proof.
  induction ops as [ | op ops IH ]; intros o Hops.
  - split; [ apply same_configuration_refl | reflexivity ].
  - cbn [forallb] in Hops. apply andb_prop in Hops. destruct Hops as [Hop Hops].
    destruct (pointer_event_step tk op o Hop) as (Hconf & Hpos & _).
    destruct (IH (run tk op o) Hops) as [Hconf' Hpos'].
    cbn [run_all fold_left]. fold (run_all tk ops (run tk op o)). split.
    + eapply same_configuration_trans; eassumption.
    + intros Hmode. rewrite Hpos'; [ apply Hpos, Hmode | ].
      destruct Hconf as [Hm _]. rewrite Hm. exact Hmode.
Qed.

Lemma pointer_events_keep_configuration_witness :
  let e := mkQMouseEvent (mkQPoint 3 4) (mkQPoint 803 604) in
  let o' := run_all TwoScreens.desktop
              [Op_enterEvent; Op_mouseMoveEvent e; Op_mousePressEvent e; Op_leaveEvent]
              TwoScreens.shown in
  timeout_ o' = timeout_ TwoScreens.shown /\
  w_pos (widget o') = w_pos (widget TwoScreens.shown).
Proof.
  cbv zeta.
  destruct (pointer_events_keep_configuration TwoScreens.desktop
              [Op_enterEvent;
               Op_mouseMoveEvent (mkQMouseEvent (mkQPoint 3 4) (mkQPoint 803 604));
               Op_mousePressEvent (mkQMouseEvent (mkQPoint 3 4) (mkQPoint 803 604));
               Op_leaveEvent]
              TwoScreens.shown eq_refl) as [Hconf Hpos].
  split; [ apply Hconf | apply Hpos; reflexivity ].
Defined.

(** X8 -- in Draggable mode no pointer event hides the widget or fades
    it: after any run of pointer events it is as visible as before, and
    its window opacity is what it was or 1.0. *)
Theorem draggable_never_dismissed_or_faded (tk : Toolkit) (ops : list Op) :
  forall o : OSDPretty,
    mode_ o = Mode_Draggable ->
    forallb is_pointer_event ops = true ->
    w_visible (widget (run_all tk ops o)) = w_visible (widget o) /\
    (w_windowOpacity (widget (run_all tk ops o)) = w_windowOpacity (widget o) \/
     w_windowOpacity (widget (run_all tk ops o)) = 1.0%float).
Proof.
  induction ops as [ | op ops IH ]; intros o Hmode Hops.
  - split; [ reflexivity | left; reflexivity ].
  - cbn [forallb] in Hops. apply andb_prop in Hops. destruct Hops as [Hop Hops].
    destruct (pointer_event_step tk op o Hop) as (Hconf & _ & Hdrag).
    destruct (Hdrag Hmode) as [Hvis Hfade].
    assert (Hmode' : mode_ (run tk op o) = Mode_Draggable)
      by (destruct Hconf as [Hm _]; rewrite Hm; exact Hmode).
    destruct (IH (run tk op o) Hmode' Hops) as [Hvis' Hfade'].
    cbn [run_all fold_left]. fold (run_all tk ops (run tk op o)). split.
    + rewrite Hvis'. exact Hvis.
    + destruct Hfade' as [ E | E ]; [ rewrite E; exact Hfade | right; exact E ].
Qed.

Lemma draggable_never_dismissed_or_faded_witness :
  let e := mkQMouseEvent (mkQPoint 3 4) (mkQPoint 803 604) in
  let o := exec (SetMode Mode_Draggable) TwoScreens.shown in
  w_visible (widget (run_all TwoScreens.desktop
                       [Op_enterEvent; Op_mousePressEvent e; Op_mouseMoveEvent e] o))
  = true.
Proof.
  cbv zeta.
  destruct (draggable_never_dismissed_or_faded TwoScreens.desktop
              [Op_enterEvent;
               Op_mousePressEvent (mkQMouseEvent (mkQPoint 3 4) (mkQPoint 803 604));
               Op_mouseMoveEvent (mkQMouseEvent (mkQPoint 3 4) (mkQPoint 803 604))]
              (exec (SetMode Mode_Draggable) TwoScreens.shown) eq_refl eq_refl)
    as [Hvis _].
  rewrite Hvis. reflexivity.
Defined.

(** ** Visibility *)

Lemma visible_run (tk : Toolkit) (op : Op) (o : OSDPretty) :
  w_visible (widget (run tk op o)) = visible_after op o.
Proof.
  destruct o as [[visible p s c level pending] u mode fg bg a d pp t owp dsp].
  destruct op; cbn [run]; rewrite ?SetMode_exec, ?SetMessage_exec;
    destruct visible, mode; reflexivity.
Qed.

(** X9 -- the widget's own code never shows it: a hidden widget stays
    hidden through any run of its operations (showing is the toolkit's
    doing), and the one operation that hides a visible widget is a press
    in Popup mode. *)
Theorem hidden_stays_hidden (tk : Toolkit) (ops : list Op) :
  forall o : OSDPretty,
    w_visible (widget o) = false ->
    w_visible (widget (run_all tk ops o)) = false /\
    (forall op, w_visible (widget (run tk op o)) = false) /\
    (forall op o', w_visible (widget o') = true ->
                   w_visible (widget (run tk op o')) = false ->
                   exists e, op = Op_mousePressEvent e /\ mode_ o' = Mode_Popup).
Proof.
  assert (Hstep : forall op o, w_visible (widget o) = false ->
                               w_visible (widget (run tk op o)) = false).
  { intros op o H. rewrite visible_run. destruct op; cbn [visible_after]; try exact H.
    destruct (mode_ o); [ reflexivity | exact H ]. }
  induction ops as [ | op ops IH ]; intros o Hhidden.
  - split; [ exact Hhidden | split; [ intros op; apply Hstep, Hhidden | ] ].
    intros op o' Hvis Hgone. rewrite visible_run in Hgone.
    destruct op; cbn [visible_after] in Hgone; try congruence.
    destruct (mode_ o') eqn:Hmode; [ | congruence ].
    exists e. split; reflexivity.
  - destruct (IH (run tk op o) (Hstep op o Hhidden)) as (Hall & _ & Honly).
    split; [ exact Hall | split; [ intros op'; apply Hstep, Hhidden | exact Honly ] ].
Qed.

Lemma hidden_stays_hidden_witness :
  w_visible (widget (run_all TwoScreens.desktop
                       [Op_SetMessage "Title" "Artist" QImage_null;
                        Op_SetMode Mode_Draggable;
                        Op_ReloadSettings (mkQSettings None None None None None)]
                       TwoScreens.fresh)) = false.
Proof.
  destruct (hidden_stays_hidden TwoScreens.desktop
              [Op_SetMessage "Title" "Artist" QImage_null;
               Op_SetMode Mode_Draggable;
               Op_ReloadSettings (mkQSettings None None None None None)]
              TwoScreens.fresh eq_refl) as [H _].
  exact H.
Defined.

(** ** Auto-hide *)

(** X10 -- a widget shown in Popup mode hides itself when the timer's
    interval has gone by and not before: if nothing else happens, it is
    visible after [msec] milliseconds exactly when [msec] is less than the
    interval.  [showEvent] also puts the window opacity back to 1.0. *)
Theorem showEvent_auto_hide (tk : Toolkit) (o : OSDPretty) (msec : Z) :
  w_visible (widget o) = true ->
  mode_ o = Mode_Popup ->
  w_visible (widget (elapse msec (exec (showEvent tk) o)))
  = (msec <? interval (timeout_ o)) /\
  w_windowOpacity (widget (exec (showEvent tk) o)) = 1.0%float.
Proof.
  intros Hvisible Hmode. rewrite showEvent_exec. cbv zeta. rewrite Hmode, Reposition_exec.
  cbv zeta. unfold elapse.
  cbn [timeout_ with_timeout with_widget widget QTimer_start remaining interval
       QWidget_with_pos QWidget_with_size QWidget_with_windowOpacity w_visible
       w_windowOpacity].
  split; [ | reflexivity ].
  destruct (Z.ltb_spec msec (interval (timeout_ o))); cbn; [ exact Hvisible | reflexivity ].
Qed.

Lemma showEvent_auto_hide_witness :
  let o := with_widget (QWidget_with_visible true TwoScreens.base) TwoScreens.fresh in
  w_visible (widget (elapse 4999 (exec (showEvent TwoScreens.desktop) o))) = true /\
  w_visible (widget (elapse 5000 (exec (showEvent TwoScreens.desktop) o))) = false.
Proof.
  cbv zeta.
  pose proof (showEvent_auto_hide TwoScreens.desktop
                (with_widget (QWidget_with_visible true TwoScreens.base) TwoScreens.fresh)
                4999 eq_refl eq_refl) as [H1 _].
  pose proof (showEvent_auto_hide TwoScreens.desktop
                (with_widget (QWidget_with_visible true TwoScreens.base) TwoScreens.fresh)
                5000 eq_refl eq_refl) as [H2 _].
  split; [ rewrite H1 | rewrite H2 ]; reflexivity.
Defined.

(** X11 -- [SetMode] does not stop the timer: changing the mode and
    letting time pass can be done in either order, so a countdown begun in
    Popup mode still hides the widget after a switch to Draggable mode. *)
Theorem SetMode_keeps_countdown (mode : Mode) (msec : Z) (o : OSDPretty) :
  elapse msec (exec (SetMode mode) o) = exec (SetMode mode) (elapse msec o) /\
  (forall r, remaining (timeout_ o) = Some r -> r <= msec ->
             w_visible (widget (elapse msec (exec (SetMode mode) o))) = false).
Proof.
  rewrite !SetMode_exec. unfold elapse.
  destruct o as [[visible p s c level pending] u m fg bg a d pp [i [r | ]] owp dsp];
    cbn [timeout_ with_widget with_mode remaining interval].
  - destruct (Z.ltb_spec msec r); (split; [ reflexivity | ]);
      intros r' E Hle; inversion E; subst; [ lia | reflexivity ].
  - split; [ reflexivity | discriminate ].
Qed.

Lemma SetMode_keeps_countdown_witness :
  remaining (timeout_ TwoScreens.shown) = Some 1200 /\
  w_visible (widget (elapse 1200 (exec (SetMode Mode_Draggable) TwoScreens.shown))) = false.
Proof.
  split; [ reflexivity | ].
  destruct (SetMode_keeps_countdown Mode_Draggable 1200 TwoScreens.shown) as [_ H].
  apply (H 1200); [ reflexivity | lia ].
Defined.

(** X12 -- [showEvent] in Draggable mode leaves the timer alone: if it is
    inactive the widget never hides by itself, and a countdown that is
    still running is neither stopped nor restarted, so the widget is
    hidden when it runs out. *)
Theorem showEvent_draggable_timer (tk : Toolkit) (o : OSDPretty) :
  w_visible (widget o) = true ->
  mode_ o = Mode_Draggable ->
  timeout_ (exec (showEvent tk) o) = timeout_ o /\
  (remaining (timeout_ o) = None ->
   forall msec, w_visible (widget (elapse msec (exec (showEvent tk) o))) = true) /\
  (forall r msec, remaining (timeout_ o) = Some r ->
     w_visible (widget (elapse msec (exec (showEvent tk) o))) = (msec <? r)).
Proof.
  intros Hvisible Hmode. rewrite showEvent_exec. cbv zeta. rewrite Hmode, Reposition_exec.
  cbv zeta. unfold elapse.
  cbn [timeout_ with_timeout with_widget widget remaining interval
       QWidget_with_pos QWidget_with_size QWidget_with_windowOpacity w_visible].
  split; [ reflexivity | split ].
  - intros ->. intros msec. exact Hvisible.
  - intros r msec ->. destruct (Z.ltb_spec msec r); cbn; [ exact Hvisible | reflexivity ].
Qed.

Lemma showEvent_draggable_timer_witness :
  let o := exec (SetMode Mode_Draggable) TwoScreens.shown in
  w_visible (widget (elapse 1199 (exec (showEvent TwoScreens.desktop) o))) = true /\
  w_visible (widget (elapse 1200 (exec (showEvent TwoScreens.desktop) o))) = false.
Proof.
  cbv zeta.
  destruct (showEvent_draggable_timer TwoScreens.desktop
              (exec (SetMode Mode_Draggable) TwoScreens.shown) eq_refl eq_refl)
    as (_ & _ & H).
  split; [ rewrite (H 1200 1199 eq_refl) | rewrite (H 1200 1200 eq_refl) ]; reflexivity.
Defined.

(** ** Packed colours *)

Lemma qRgb_red (r g b : Z) : Z.land (Z.shiftr (qRgb r g b) 16) 255 = Z.land r 255.
Proof. unfold qRgb. change 255 with (Z.ones 8). Z.bitblast. Qed.

Lemma qRgb_green (r g b : Z) : Z.land (Z.shiftr (qRgb r g b) 8) 255 = Z.land g 255.
Proof. unfold qRgb. change 255 with (Z.ones 8). Z.bitblast. Qed.

Lemma qRgb_blue (r g b : Z) : Z.land (qRgb r g b) 255 = Z.land b 255.
Proof. unfold qRgb. change 255 with (Z.ones 8). Z.bitblast. Qed.

Lemma land_255_byte (v : Z) : 0 <= v <= 255 -> Z.land v 255 = v.
Proof.
  intros H. change 255 with (Z.ones 8). rewrite Z.land_ones by lia.
  apply Z.mod_small. change (2 ^ 8) with 256. lia.
Qed.

Lemma land_255_idempotent (v : Z) : Z.land (Z.land v 255) 255 = Z.land v 255.
Proof. change 255 with (Z.ones 8). Z.bitblast. Qed.

Lemma QColor_fromRgb_qRgb (r g b : Z) :
  QColor_fromRgb (qRgb r g b) = mkQColor (Z.land r 255) (Z.land g 255) (Z.land b 255) 255.
Proof. unfold QColor_fromRgb. rewrite qRgb_red, qRgb_green, qRgb_blue. reflexivity. Qed.

Lemma QColor_fromRgb_rgb (v : Z) :
  QColor_fromRgb (QColor_rgb (QColor_fromRgb v)) = QColor_fromRgb v.
Proof.
  unfold QColor_rgb. rewrite QColor_fromRgb_qRgb. unfold QColor_fromRgb.
  cbn [red green blue]. rewrite !land_255_idempotent. reflexivity.
Qed.

Lemma QColor_fromRgb_low_24_bits (v : Z) :
  QColor_fromRgb (Z.land v 16777215) = QColor_fromRgb v.
Proof.
  unfold QColor_fromRgb. change 16777215 with (Z.ones 24). change 255 with (Z.ones 8).
  f_equal; Z.bitblast.
Qed.

(** X13 -- the colour setters keep exactly the three colour bytes of the
    packed value: a colour packed with [qRgb] from bytes r, g, b is stored
    as (r, g, b), fully opaque, and reads back as the same packed value;
    whatever the top byte of the argument holds is dropped. *)
Theorem setters_store_colour_bytes (r g b v : Z) (o : OSDPretty) :
  0 <= r <= 255 -> 0 <= g <= 255 -> 0 <= b <= 255 ->
  background_color_ (exec (set_background_color (qRgb r g b)) o) = mkQColor r g b 255 /\
  foreground_color_ (exec (set_foreground_color (qRgb r g b)) o) = mkQColor r g b 255 /\
  QColor_rgb (background_color_ (exec (set_background_color (qRgb r g b)) o)) = qRgb r g b /\
  background_color_ (exec (set_background_color (Z.land v 16777215)) o)
  = background_color_ (exec (set_background_color v) o) /\
  alpha (background_color_ (exec (set_background_color v) o)) = 255.
Proof.
  intros Hr Hg Hb.
  assert (Hbg : forall c, background_color_ (exec (set_background_color c) o)
                          = QColor_fromRgb c).
  { intros c. destruct o as [[visible p s cu level pending] u mode fg bg a d pp t owp dsp].
    destruct visible; reflexivity. }
  assert (Hfg : forall c, foreground_color_ (exec (set_foreground_color c) o)
                          = QColor_fromRgb c) by reflexivity.
  rewrite !Hbg, Hfg, QColor_fromRgb_low_24_bits, QColor_fromRgb_qRgb.
  rewrite !land_255_byte by assumption.
  repeat split.
Qed.

Lemma setters_store_colour_bytes_witness :
  background_color_ (exec (set_background_color kPresetOrange) TwoScreens.fresh)
  = mkQColor 254 156 67 255.
Proof.
  apply (setters_store_colour_bytes (r := 254) (g := 156) (b := 67) 0 TwoScreens.fresh);
    lia.
Defined.

(** ** Settings *)

Lemma exec_bind {A : Type} (m : M A) (k : A -> M unit) (o : OSDPretty) :
  exec (bind m k) o = exec (k (fst (m o))) (exec m o).
Proof. unfold exec, bind. destruct (m o) as [a o1]. reflexivity. Qed.

Lemma Load_exec (s : QSettings) (o : OSDPretty) :
  exec (Load s) o =
  let fg := QColor_fromRgb (value (s_foreground_color s) 0) in
  mkOSDPretty (widget o)
    (mkUi (icon_visible (ui_ o)) (icon_pixmap (ui_ o)) (icon_maximumSize (ui_ o))
          (summary_text (ui_ o)) (message_text (ui_ o)) (Some fg) (Some fg))
    (mode_ o) fg
    (QColor_fromRgb (value (s_background_color s) kPresetBlue))
    (value (s_background_opacity s) 0.85%float)
    (value (s_popup_display s) (-1))
    (value (s_popup_pos s) (mkQPoint 0 0))
    (timeout_ o) (original_window_pos_ o) (drag_start_pos_ o).
Proof.
  cbv zeta.
  pose proof (QColor_fromRgb_rgb (value (s_foreground_color s) 0)) as Hfg.
  unfold exec, Load, set_foreground_color, foreground_color, summary_setPalette,
    message_setPalette, on_ui, bind, gets, modify.
  cbn [snd fst with_foreground_color with_background_color with_background_opacity
       with_popup_display with_popup_pos with_ui foreground_color_ ui_ widget mode_
       background_color_ background_opacity_ popup_display_ popup_pos_ timeout_
       original_window_pos_ drag_start_pos_ icon_visible icon_pixmap icon_maximumSize
       summary_text message_text summary_palette message_palette].
  rewrite Hfg. reflexivity.
Qed.

(** X14 -- [Load] takes each of the five settings from the store, or its
    default when the key is missing (black, the blue preset, 0.85, -1 and
    (0, 0)), gives both labels the loaded foreground colour as text colour
    and leaves everything else as it is: visibility, position, size, mode,
    timer, texts and icon.  Nothing of what was set before survives: a
    second [Load] ends in the same state whatever the first one read. *)
Theorem Load_settings_or_defaults (s s' : QSettings) (o : OSDPretty) :
  let o' := exec (Load s) o in
  foreground_color_ o' = QColor_fromRgb (value (s_foreground_color s) 0) /\
  background_color_ o' = QColor_fromRgb (value (s_background_color s) kPresetBlue) /\
  background_opacity_ o' = value (s_background_opacity s) 0.85%float /\
  popup_display_ o' = value (s_popup_display s) (-1) /\
  popup_pos_ o' = value (s_popup_pos s) (mkQPoint 0 0) /\
  summary_palette (ui_ o') = Some (foreground_color_ o') /\
  message_palette (ui_ o') = Some (foreground_color_ o') /\
  widget o' = widget o /\
  mode_ o' = mode_ o /\
  timeout_ o' = timeout_ o /\
  summary_text (ui_ o') = summary_text (ui_ o) /\
  message_text (ui_ o') = message_text (ui_ o) /\
  icon_visible (ui_ o') = icon_visible (ui_ o) /\
  icon_pixmap (ui_ o') = icon_pixmap (ui_ o) /\
  QColor_fromRgb 0 = mkQColor 0 0 0 255 /\
  QColor_fromRgb kPresetBlue = mkQColor 102 150 227 255 /\
  exec (Load s) (exec (Load s') o) = exec (Load s) o.
Proof.
  cbv zeta. rewrite !Load_exec. cbv zeta.
  cbn [foreground_color_ background_color_ background_opacity_ popup_display_
       popup_pos_ ui_ widget mode_ timeout_ summary_palette message_palette
       summary_text message_text icon_visible icon_pixmap icon_maximumSize
       original_window_pos_ drag_start_pos_].
  repeat split.
Qed.

Example Load_nothing_stored :
  let o := exec (Load (mkQSettings None None None None None)) TwoScreens.shown in
  foreground_color_ o = mkQColor 0 0 0 255 /\
  background_color_ o = mkQColor 102 150 227 255 /\
  popup_display_ o = -1 /\
  popup_pos_ o = mkQPoint 0 0.
Proof. vm_compute. repeat split. Qed.

(** X15 -- [ReloadSettings] loads the settings and asks for a repaint
    exactly when the widget is visible; it does not move, resize, show or
    hide the widget, whatever placement it has read, and does not touch
    the timer or the mode. *)
Theorem ReloadSettings_in_place (s : QSettings) (o : OSDPretty) :
  let o' := exec (ReloadSettings s) o in
  w_update_pending (widget o')
  = (w_visible (widget o) || w_update_pending (widget o))%bool /\
  w_pos (widget o') = w_pos (widget o) /\
  w_size (widget o') = w_size (widget o) /\
  w_visible (widget o') = w_visible (widget o) /\
  w_windowOpacity (widget o') = w_windowOpacity (widget o) /\
  timeout_ o' = timeout_ o /\
  mode_ o' = mode_ o /\
  popup_pos_ o' = value (s_popup_pos s) (mkQPoint 0 0) /\
  popup_display_ o' = value (s_popup_display s) (-1) /\
  background_color_ o' = background_color_ (exec (Load s) o) /\
  foreground_color_ o' = foreground_color_ (exec (Load s) o) /\
  ui_ o' = ui_ (exec (Load s) o).
Proof.
  cbv zeta.
  assert (E : exec (ReloadSettings s) o =
              let o1 := exec (Load s) o in
              if w_visible (widget o1)
              then with_widget (QWidget_with_update_pending true (widget o1)) o1
              else o1).
  { unfold ReloadSettings. rewrite exec_bind. generalize (exec (Load s) o). intros o1.
    cbv zeta. unfold exec, bind, isVisible, gets, when, update, on_widget, modify, ret.
    cbn [snd fst]. destruct (w_visible (widget o1)); reflexivity. }
  rewrite E. cbv zeta. rewrite Load_exec. cbv zeta. cbn [widget].
  destruct (w_visible (widget o)) eqn:Hvisible;
    cbn [with_widget widget QWidget_with_update_pending w_update_pending w_pos w_size
         w_visible w_windowOpacity timeout_ mode_ popup_pos_ popup_display_
         background_color_ foreground_color_ ui_ orb];
    rewrite ?Hvisible; repeat split.
Qed.

(** X16 -- whatever the store holds, the constructor leaves the widget in
    Popup mode with the arrow cursor, the timer inactive with an interval
    of 5000 ms and the icon limited to 100x100; the display index and the
    background colour are the loaded ones (-1 and the blue preset when
    nothing is stored), not the 0 and the orange preset of the member
    initialisers. *)
Theorem constructor_state (base : QWidget) (form : Ui_OSDPretty) (s : QSettings) :
  let o := OSDPretty_new base form s in
  mode_ o = Mode_Popup /\
  w_cursor (widget o) = ArrowCursor /\
  timeout_ o = mkQTimer 5000 None /\
  icon_maximumSize (ui_ o) = Some (mkQSize kMaxIconSize kMaxIconSize) /\
  popup_display_ o = value (s_popup_display s) (-1) /\
  background_color_ o = QColor_fromRgb (value (s_background_color s) kPresetBlue) /\
  background_opacity_ o = value (s_background_opacity s) 0.85%float /\
  popup_pos_ o = value (s_popup_pos s) (mkQPoint 0 0) /\
  foreground_color_ o = QColor_fromRgb (value (s_foreground_color s) 0) /\
  w_visible (widget o) = w_visible base /\
  w_pos (widget o) = w_pos base /\
  w_size (widget o) = w_size base.
Proof.
  cbv zeta.
  unfold OSDPretty_new. rewrite !exec_bind, Load_exec, SetMode_exec. cbv zeta.
  unfold exec, icon_setMaximumSize, timeout_setInterval, on_ui, on_timeout, modify.
  cbn [snd with_widget with_mode with_ui with_timeout widget ui_ mode_ timeout_
       popup_display_ background_color_ background_opacity_ popup_pos_
       foreground_color_ QWidget_with_cursor w_cursor w_visible w_pos w_size
       QTimer_setInterval remaining interval icon_maximumSize].
  repeat split.
Qed.

(** ** Content update, continued *)

(** X17 -- showing the same message twice is the same as showing it once:
    a second [SetMessage] with the same texts and image leaves the state
    of the first, hidden or visible and in either mode (a restarted timer
    again has its whole interval to go). *)
Theorem SetMessage_idempotent (tk : Toolkit) (summary message : string)
  (image : QImage) (o : OSDPretty) :
  exec (SetMessage tk summary message image)
       (exec (SetMessage tk summary message image) o)
  = exec (SetMessage tk summary message image) o.
Proof.
  rewrite !SetMessage_exec. cbv zeta.
  destruct o as [[visible p s c level pending] u mode fg bg a d pp [i r] owp dsp].
  destruct visible, mode, image;
    cbn [widget with_ui with_timeout w_visible mode_ ui_ timeout_];
    rewrite ?Reposition_exec; reflexivity.
Qed.

(** ** Painting, continued *)

Lemma kShadowCornerSize_value : Int.add kDropShadowSize kBorderRadius = 23.
Proof. vm_compute. reflexivity. Qed.

Lemma kShadowCornerSize_twice : Int.mul 23 2 = 46.
Proof. vm_compute. reflexivity. Qed.

(** X18 -- the four tiled shadow edges are strips 13 pixels thick along
    the sides of the widget: for a widget of at least 13x13 each of them
    lies within the widget's rectangle and does not overlap the content
    box, which is the widget's rectangle drawn in by 13 pixels on every
    side. *)
Theorem shadow_edges_around_content_box (tk : Toolkit) (o : OSDPretty) :
  QSize_small (w_size (widget o)) ->
  13 <= wd (w_size (widget o)) ->
  13 <= ht (w_size (widget o)) ->
  content_box o = mkQRect 13 13 (wd (w_size (widget o)) - 14) (ht (w_size (widget o)) - 14) /\
  Forall (shadow_edge_placed o) (p_drawn (paintEvent tk o)) /\
  List.length (filter (fun c => match tile_extent c with Some _ => true | None => false end)
                 (p_drawn (paintEvent tk o))) = 4%nat.
Proof.
  intros (Hw & Hh) Hwide Hhigh.
  assert (Hbox : content_box o
                 = mkQRect 13 13 (wd (w_size (widget o)) - 14) (ht (w_size (widget o)) - 14)).
  { unfold content_box, QRect_adjusted, rect. cbn [left top right bottom].
    rewrite Int_neg_kDropShadowSize. unfold kDropShadowSize, small in *.
    rewrite !(Int_sub_exact (_ : Z) 1)
      by (unfold Int.in_range, Int.min_int, Int.max_int; lia).
    rewrite !Int_add_exact by (unfold Int.in_range, Int.min_int, Int.max_int; lia).
    f_equal; lia. }
  split; [ exact Hbox | ].
  unfold paintEvent. cbv zeta. rewrite kShadowCornerSize_value, kShadowCornerSize_twice.
  cbn [p_drawn draw p_drawPixmap p_drawTiledPixmap p_drawRoundedRect setBrush setPen
       setOpacity setRenderHint QPainter_begin p_opacity p_brush p_pen p_hints app
       filter tile_extent List.length].
  split; [ | reflexivity ].
  assert (H23 : small 23) by (unfold small; lia).
  assert (H46 : small 46) by (unfold small; lia).
  assert (H13 : small kDropShadowSize) by (unfold small, kDropShadowSize; lia).
  rewrite !(Int_sub_small Hw H23), !(Int_sub_small Hw H46), !(Int_sub_small Hw H13).
  rewrite !(Int_sub_small Hh H23), !(Int_sub_small Hh H46), !(Int_sub_small Hh H13).
  assert (Hrect : rect o = mkQRect 0 0 (wd (w_size (widget o)) - 1)
                                       (ht (w_size (widget o)) - 1)).
  { unfold rect. assert (H1 : small 1) by (unfold small; lia).
    rewrite (Int_sub_small Hw H1), (Int_sub_small Hh H1). reflexivity. }
  repeat (apply Forall_cons;
          [ unfold shadow_edge_placed; cbn [tile_extent];
            first [ exact I
                  | rewrite Hbox, Hrect;
                    unfold QRect_inside, QRect_disjoint, kDropShadowSize;
                    cbn [left top right bottom]; lia ]
          | ]).
  apply Forall_nil.
Qed.

Lemma shadow_edges_around_content_box_witness :
  content_box (exec (Reposition TwoScreens.desktop) TwoScreens.fresh)
  = mkQRect 13 13 286 86.
Proof.
  destruct (shadow_edges_around_content_box TwoScreens.desktop
              (exec (Reposition TwoScreens.desktop) TwoScreens.fresh)) as [H _].
  - vm_compute; repeat split; discriminate.
  - vm_compute; discriminate.
  - vm_compute; discriminate.
  - rewrite H. reflexivity.
Defined.
